(** * Mood interpretation and trend aggregation

    A shallow embedding of [src/main.py]: the Flask handlers [analyze_mood],
    [set_emergency_code], [get_mood_trends] and [submit_checkin], the
    crisis-keyword table and [to_date], over an in-memory model of the
    Firestore collections they read and write.

    Python values are modelled as follows.
    - [str] is a [string] holding the UTF-8 bytes of the text.  Substring
      tests on UTF-8 bytes and on code points agree.
    - [float] is the kernel's binary64 [float]; [+], [/] and [>] are the
      IEEE-754 operations, [round(x, 2)] and [statistics.stdev] are written
      out below after CPython 3.11.
    - [dict] used as a JSON object is a [gmap]; the [defaultdict] that
      [get_mood_trends] iterates over keeps its insertion order and is an
      association list.
    - An exception is a value of [exn]; code that may raise lives in the
      [result] monad, and every handler ends in the catch-all of the source.

    [log_visual_emotion] writes to a collection of its own that nothing
    reads; it is modelled apart from the store of the other handlers.

    What the handlers use but do not define (the two classifier pipelines,
    [str.lower], the availability of the Firestore backend) is gathered in
    [Env] and passed explicitly. *)

From Stdlib Require Import ZArith QArith Floats String Ascii List Permutation Lia.
From stdpp Require Import base gmap strings list fin_maps.

#[local] Set Warnings "-inexact-float".
#[local] Open Scope Z_scope.

(** ** Exceptions and the error monad *)

Record exn := Exn { exn_type : string; exn_msg : string }.

(** [str(e)]: the message only; the exception's class is not part of it. *)
Definition str_exn (e : exn) : string := exn_msg e.

Inductive result (A : Type) : Type :=
  | Ok (a : A)
  | Raise (e : exn).
Arguments Ok {A} a.
Arguments Raise {A} e.

#[export] Instance result_ret : MRet result := fun A a => Ok a.
#[export] Instance result_bind : MBind result := fun A B f m =>
  match m with
  | Ok a => f a
  | Raise e => Raise e
  end.

Definition is_ok {A} (r : result A) : bool :=
  match r with Ok _ => true | Raise _ => false end.

(** ** Floats: [round], [sum], [len] and [statistics.stdev] *)

Module Py.

(** The integer nearest to [num / den] ([den > 0]), ties to the even one. *)
Definition round_half_even (num den : Z) : Z :=
  let q := num / den in
  let r := num mod den in
  match 2 * r ?= den with
  | Lt => q
  | Gt => q + 1
  | Eq => if Z.even q then q else q + 1
  end.

(** The integer nearest to [m * 2^e * 10^k]: the decimal digits that
    [round] keeps of the float whose magnitude is [m * 2^e]. *)
Definition nearest_scaled (m : positive) (e : Z) (k : N) : Z :=
  let num := Z.pos m * 10 ^ Z.of_N k in
  if 0 <=? e then num * 2 ^ e else round_half_even num (2 ^ (- e)).

(** The float nearest to [n / d], as [int / int] and the conversion of a
    decimal string give it. *)
Definition float_of_ratio (s : bool) (n d : positive) : float :=
  SF2Prim (SFdiv prec emax (S754_finite s n 0) (S754_finite false d 0)).

(** [round(x, ndigits)] for a float [x] and [ndigits >= 0]: the exact value
    of [x] is rounded half-even to [ndigits] decimals and the decimal is
    converted back to the nearest float; zeros, infinities and NaN round to
    themselves. *)
Definition round (x : float) (ndigits : N) : float :=
  match Prim2SF x with
  | S754_finite s m e =>
      match nearest_scaled m e ndigits with
      | Z.pos n => float_of_ratio s n (Z.to_pos (10 ^ Z.of_N ndigits))
      | _ => if s then (-0)%float else 0%float
      end
  | _ => x
  end.

(** [sum(l)] for a list of floats: binary64 additions from left to right,
    starting from [0], as CPython does up to version 3.11 (3.12 switched to a
    compensated summation that is not modelled here). *)
Definition sum (l : list float) : float := fold_left PrimFloat.add l 0%float.

(** [len(l)] as the float that [/] converts it to. *)
Definition len_float {A} (l : list A) : float :=
  PrimFloat.of_uint63 (Uint63.of_Z (Z.of_nat (length l))).

(** [x.as_integer_ratio()]: the exact value of a finite float. *)
Definition exact_ratio (x : float) : option Q :=
  match Prim2SF x with
  | S754_zero _ => Some 0%Q
  | S754_finite s m e =>
      let v := if 0 <=? e then (Z.pos m * 2 ^ e) # 1
               else Z.pos m # Z.to_pos (2 ^ (- e)) in
      Some (if s then Qopp v else v)
  | _ => None
  end.

Definition bit_length (n : Z) : Z :=
  match n with
  | Z0 => 0
  | Z.pos p | Z.neg p => Z.pos (digits2_pos p)
  end.

(** [statistics._integer_sqrt_of_frac_rto]. *)
Definition integer_sqrt_of_frac_rto (n m : Z) : Z :=
  let a := Z.sqrt (n / m) in
  if a * a * m =? n then a else Z.lor a 1.

(** [numerator / denominator] on non-negative ints: correctly rounded, and
    an [OverflowError] when the quotient is too large for a float. *)
Definition int_true_div (n d : Z) : result float :=
  match n, d with
  | Z.pos n, Z.pos d =>
      let r := float_of_ratio false n d in
      if PrimFloat.eqb r infinity
      then Raise (Exn "OverflowError" "integer division result too large for a float")
      else Ok r
  | Z0, Z.pos _ => Ok 0%float
  | _, _ => Raise (Exn "ZeroDivisionError" "division by zero")
  end.

(** [statistics._float_sqrt_of_frac], with [_sqrt_bit_width = 109]. *)
Definition float_sqrt_of_frac (n m : Z) : result float :=
  let q := (bit_length n - bit_length m - 109) / 2 in
  if 0 <=? q
  then int_true_div (Z.shiftl (integer_sqrt_of_frac_rto n (Z.shiftl m (2 * q))) q) 1
  else int_true_div (integer_sqrt_of_frac_rto (Z.shiftl n (- 2 * q)) m) (Z.shiftl 1 (- q)).

(** The exact sums [sx] and [sxx] of [statistics._ss]; [None] as soon as a
    value is an infinity or a NaN. *)
Fixpoint exact_sums (l : list float) : option (Q * Q) :=
  match l with
  | [] => Some (0%Q, 0%Q)
  | x :: l' =>
      match exact_ratio x, exact_sums l' with
      | Some v, Some (sx, sxx) => Some (Qplus v sx, Qplus (Qmult v v) sxx)
      | _, _ => None
      end
  end.

(** The exact sample variance [ss / (n - 1)] as a fraction in lowest terms. *)
Definition sample_variance (l : list float) : option Q :=
  let n := inject_Z (Z.of_nat (length l)) in
  match exact_sums l with
  | Some (sx, sxx) =>
      Some (Qred (Qdiv (Qdiv (Qminus (Qmult n sxx) (Qmult sx sx)) n) (Qminus n 1)))
  | None => None
  end.

(** [statistics.stdev(l)] for a list of floats. *)
Definition stdev (l : list float) : result float :=
  if (length l <? 2)%nat
  then Raise (Exn "StatisticsError" "stdev requires at least two data points")
  else match sample_variance l with
       | Some mss => float_sqrt_of_frac (Qnum mss) (Z.pos (Qden mss))
       | None => Raise (Exn "AttributeError" "'float' object has no attribute 'numerator'")
       end.

(** [needle in haystack] on strings. *)
Fixpoint contains (needle haystack : string) : bool :=
  String.prefix needle haystack ||
  match haystack with
  | EmptyString => false
  | String _ rest => contains needle rest
  end.

(** [str.lower] on the ASCII letters; every other byte is kept. *)
Definition ascii_lower_char (c : ascii) : ascii :=
  let n := nat_of_ascii c in
  if ((65 <=? n) && (n <=? 90))%nat then ascii_of_nat (n + 32) else c.

Fixpoint ascii_lower (s : string) : string :=
  match s with
  | EmptyString => EmptyString
  | String c s' => String (ascii_lower_char c) (ascii_lower s')
  end.

(** [str.lower] beyond ASCII.  CPython lowercases a text character by
    character, each by its own lowercase, except the Greek capital sigma
    U+03A3: its lowercase is the final form U+03C2 when a cased character
    comes before it and none comes after it, case-ignorable characters being
    skipped on both sides, and U+03C3 otherwise ([handle_capital_sigma] in
    [unicodeobject.c]).

    [str_lower] is [str.lower] for text made of ASCII characters and the
    Greek letters U+0391 to U+03A9 and U+03B1 to U+03C9.  The bytes of any
    other character are kept as they are and count as uncased. *)

(** A character of a UTF-8 text: a code point decoded from a sequence of one
    or two bytes, or a byte of a longer or ill-formed sequence. *)
Inductive uchar := Decoded (cp : N) | Raw (b : ascii).

Fixpoint decode (s : string) : list uchar :=
  match s with
  | EmptyString => []
  | String b s' =>
      let n := N_of_ascii b in
      if (n <? 128)%N then Decoded n :: decode s'
      else match s' with
           | String b' rest =>
               let n' := N_of_ascii b' in
               if ((194 <=? n) && (n <=? 223) && (128 <=? n') && (n' <=? 191))%N
               then Decoded ((n - 192) * 64 + (n' - 128))%N :: decode rest
               else Raw b :: decode s'
           | EmptyString => [Raw b]
           end
  end.

Definition encode_uchar (c : uchar) : string :=
  match c with
  | Decoded cp =>
      if (cp <? 128)%N then String (ascii_of_N cp) EmptyString
      else String (ascii_of_N (192 + cp / 64)) (String (ascii_of_N (128 + cp mod 64)) EmptyString)
  | Raw b => String b EmptyString
  end.

Definition encode (l : list uchar) : string :=
  fold_right (fun c s => String.append (encode_uchar c) s) EmptyString l.

(** The Greek capitals U+0391 to U+03A9; U+03A2 is not assigned. *)
Definition greek_capital (cp : N) : bool :=
  ((913 <=? cp) && (cp <=? 937) && negb (cp =? 930))%N.

(** [_PyUnicode_IsCased]: the ASCII letters and the Greek letters. *)
Definition is_cased (c : uchar) : bool :=
  match c with
  | Decoded cp =>
      ((65 <=? cp) && (cp <=? 90))%N || ((97 <=? cp) && (cp <=? 122))%N ||
      greek_capital cp || ((945 <=? cp) && (cp <=? 969))%N
  | Raw _ => false
  end.

(** [_PyUnicode_IsCaseIgnorable]: among the ASCII characters the apostrophe,
    the full stop, the colon, the circumflex and the grave accent. *)
Definition is_case_ignorable (c : uchar) : bool :=
  match c with
  | Decoded cp => ((cp =? 39) || (cp =? 46) || (cp =? 58) || (cp =? 94) || (cp =? 96))%N
  | Raw _ => false
  end.

(** [_PyUnicode_ToLowerFull] on a character other than the capital sigma. *)
Definition to_lower (cp : N) : N :=
  if ((65 <=? cp) && (cp <=? 90))%N || greek_capital cp then (cp + 32)%N else cp.

(** The first character that is not case-ignorable is cased. *)
Fixpoint cased_next (l : list uchar) : bool :=
  match l with
  | [] => false
  | c :: l' => if is_case_ignorable c then cased_next l' else is_cased c
  end.

(** [before] holds the characters before the sigma, the nearest first;
    [after] the characters after it. *)
Definition handle_capital_sigma (before after : list uchar) : N :=
  if cased_next before && negb (cased_next after) then 962%N else 963%N.

Fixpoint lower_from (before after : list uchar) : list uchar :=
  match after with
  | [] => []
  | c :: rest =>
      match c with
      | Decoded cp =>
          Decoded (if (cp =? 931)%N then handle_capital_sigma before rest else to_lower cp)
      | Raw b => Raw b
      end :: lower_from (c :: before) rest
  end.

Definition str_lower (s : string) : string := encode (lower_from [] (decode s)).

End Py.

(** ** Data model *)

(** A [datetime] as [datetime.now()] returns it and Firestore stores it. *)
Record datetime := {
  year : Z; month : Z; day : Z;
  hour : Z; minute : Z; second : Z; microsecond : Z
}.

Definition digit (n : Z) : ascii := ascii_of_nat (48 + Z.to_nat (n mod 10)).
Definition pad2 (n : Z) : string := String (digit (n / 10)) (String (digit n) "").
Definition pad4 (n : Z) : string :=
  String (digit (n / 1000)) (String (digit (n / 100)) (pad2 n)).

(** [to_date]: [timestamp.strftime('%Y-%m-%d')].  The documents this
    program writes carry [datetime] timestamps, so the [str] branch
    ([datetime.fromisoformat]) is not taken. *)
Definition to_date (timestamp : datetime) : string :=
  pad4 (year timestamp) +:+ "-" +:+ pad2 (month timestamp) +:+ "-" +:+ pad2 (day timestamp).

(** The first element of a pipeline's answer: [classifier(text)[0]]. *)
Module Classification.
Record t := { label : string; score : float }.
End Classification.

(** A document of [user_emergency_settings]. *)
Module EmergencySettings.
Record t := {
  code_word : option string;
  emergency_contact : string;
  updated_at : datetime
}.
End EmergencySettings.

(** A document of [mood_entries].  The three fields that [get_mood_trends]
    reads defensively ([in], [.get]) are optional. *)
Module MoodEntry.
Record t := {
  user_id : string;
  text : string;
  emotion : option string;
  confidence : float;
  crisis : bool;
  timestamp : option datetime;
  risk_score : option float;
  risk_label : string;
  trigger_emergency : bool
}.
End MoodEntry.

(** A JSON number. *)
Inductive number := PyInt (z : Z) | PyFloat (f : float).

(** A document of [user_checkins/<user_id>/entries]. *)
Module CheckIn.
Record t := {
  slider_value : number;
  tags : list string;
  note : string;
  timestamp : datetime
}.
End CheckIn.

(** One value of the response's [trends] object. *)
Module DailyTrend.
Record t := {
  average_risk_score : float;
  emotion_distribution : gmap string nat;
  mood_swing : bool
}.
End DailyTrend.

(** The Firestore collections. [add] gives a document a fresh identifier, so
    a collection written with [add] is the list of its documents; the order
    in which [stream] yields them is not fixed by the program. *)
Record Store := {
  user_emergency_settings : gmap string EmergencySettings.t;
  mood_entries : list MoodEntry.t;
  user_checkins : gmap string (list CheckIn.t)
}.

Definition empty_store : Store :=
  {| user_emergency_settings := ∅; mood_entries := []; user_checkins := ∅ |}.

(** ** Requests and responses *)

(** The parsed JSON objects of the requests; a key may be missing. *)
Module AnalyzeMoodData.
Record t := { text : option string; user_id : option string }.
End AnalyzeMoodData.

Module SetEmergencyData.
Record t := {
  user_id : option string;
  code_word : option string;
  emergency_contact : option string
}.
End SetEmergencyData.

Module MoodTrendsData.
Record t := { user_id : option string }.
End MoodTrendsData.

Module CheckInData.
Record t := {
  user_id : option string;
  slider_value : option number;
  tags : option (list string);
  note : option string
}.
End CheckInData.

(** The success body of [analyze_mood]. *)
Module MoodAnalysis.
Record t := {
  emotion : string;
  confidence : float;
  crisis : bool;
  risk_score : float;
  risk_label : string;
  trigger_emergency : bool;
  message : string
}.
End MoodAnalysis.

Inductive Body :=
  | ErrorBody (error : string)
  | MessageBody (message : string)
  | MoodBody (analysis : MoodAnalysis.t)
  | TrendsBody (user_id : string) (trends : gmap string DailyTrend.t) (message : string).

Record Response := { status : Z; body : Body }.

(** [jsonify(b)] and [jsonify(b), code]. *)
Definition jsonify (b : Body) : Response := {| status := 200; body := b |}.
Definition jsonify_error (error : string) (code : Z) : Response :=
  {| status := code; body := ErrorBody error |}.

(** ** The environment of the handlers *)

Record Env := {
  (** [str.lower] *)
  lower : string → string;
  (** the two pipelines; [Raise] when the call fails *)
  emotion_classifier : string → result Classification.t;
  risk_classifier : string → result Classification.t;
  (** [Some e] while the Firestore backend is unreachable: every call on
      [db] then raises [e] *)
  firestore_fault : option exn
}.

(** Step 3 of the source: the crisis keywords, as they are written there. *)
Definition crisis_keywords : list string := [
  "hopeless"; "worthless"; "suicidal"; "kill myself";
  "give up"; "end it all"; "can't go on"; "no purpose";
  "don’t want to be here"; "everything is meaningless";
  "better off without me"; "I want to disappear";
  "I hate living"; "I’m done with life"; "I want it to end"
].

(** Python's truth value of an optional string: [None] and [""] are false.
    [nonempty s] is the string when [s] is true. *)
Definition nonempty (s : option string) : option string :=
  match s with
  | Some s => if String.eqb s "" then None else Some s
  | None => None
  end.

(** The dictionaries that [get_mood_trends] appends to [grouped_data]. A
    missing [risk_score] reads as the int [0], which [sum], [/] and [stdev]
    treat as the float [0.0]. *)
Module Item.
Record t := { emotion : option string; risk_score : float }.
End Item.

(** [grouped_data[date_key].append(x)] on a [defaultdict(list)], which keeps
    its keys in insertion order. *)
Fixpoint group_append (date_key : string) (x : Item.t)
    (g : list (string * list Item.t)) : list (string * list Item.t) :=
  match g with
  | [] => [(date_key, [x])]
  | (k, l) :: g' =>
      if String.eqb k date_key then (k, l ++ [x]) :: g'
      else (k, l) :: group_append date_key x g'
  end.

Definition item_of (doc : MoodEntry.t) : Item.t :=
  {| Item.emotion := MoodEntry.emotion doc;
     Item.risk_score := default 0%float (MoodEntry.risk_score doc) |}.

(** The first loop of [get_mood_trends]. *)
Definition grouped_data (mood_entries : list MoodEntry.t) : list (string * list Item.t) :=
  fold_left
    (fun g doc =>
       match MoodEntry.timestamp doc with
       | None => g
       | Some ts => group_append (to_date ts) (item_of doc) g
       end)
    mood_entries [].

(** [dict(Counter(emotions))]. *)
Definition Counter (emotions : list string) : gmap string nat :=
  fold_left (fun c e => <[e := S (default 0%nat (c !! e))]> c) emotions ∅.

(** [[entry["emotion"] for entry in entries if entry["emotion"]]]. *)
Definition emotions_of (entries : list Item.t) : list string :=
  omap (fun entry => nonempty (Item.emotion entry)) entries.

(** [round(sum(risk_scores) / len(risk_scores), 2) if risk_scores else 0]. *)
Definition average_risk (risk_scores : list float) : float :=
  match risk_scores with
  | [] => 0%float
  | _ => Py.round (Py.sum risk_scores / Py.len_float risk_scores) 2
  end.

(** The mood-swing flag of one date: lines 149 to 152. *)
Definition mood_swing_of (risk_scores : list float) : result bool :=
  if (2 <=? length risk_scores)%nat
  then std_dev ← Py.stdev risk_scores;
       Ok (2 <? Py.round std_dev 2)%float
  else Ok false.

(** The body of the second loop of [get_mood_trends], for one date. *)
Definition daily_trend (entries : list Item.t) : result DailyTrend.t :=
  let risk_scores := map Item.risk_score entries in
  let emotions := emotions_of entries in
  let average_risk := average_risk risk_scores in
  let emotion_counts := Counter emotions in
  mood_swing ← mood_swing_of risk_scores;
  Ok {| DailyTrend.average_risk_score := average_risk;
        DailyTrend.emotion_distribution := emotion_counts;
        DailyTrend.mood_swing := mood_swing |}.

(** The second loop: [trends[date] = {...}] for the dates in insertion
    order; the first exception ends it. *)
Fixpoint trends_loop (groups : list (string * list Item.t))
    (trends : gmap string DailyTrend.t) : result (gmap string DailyTrend.t) :=
  match groups with
  | [] => Ok trends
  | (date, entries) :: groups' =>
      t ← daily_trend entries;
      trends_loop groups' (<[date := t]> trends)
  end.

(** Lines 130 to 158: from the streamed documents to the [trends] object. *)
Definition aggregate_trends (mood_entries : list MoodEntry.t) : result (gmap string DailyTrend.t) :=
  trends_loop (grouped_data mood_entries) ∅.

(** ** The handlers *)

Section Handlers.
Context (env : Env).

(** A call on the Firestore client: it raises while the backend is down. *)
Definition firestore {A} (a : A) : result A :=
  match firestore_fault env with
  | Some e => Raise e
  | None => Ok a
  end.

(** [except Exception as e: return jsonify({"error": str(e)}), 500].  In
    every handler the write is the last call that can raise, so the store
    after an exception is the store before the request. *)
Definition try_except (db : Store) (body : result (Store * Response)) : Store * Response :=
  match body with
  | Ok r => r
  | Raise e => (db, jsonify_error (str_exn e) 500)
  end.

(** [any(word in user_text.lower() for word in crisis_keywords)]. *)
Definition keyword_crisis (user_text : string) : bool :=
  existsb (fun word => Py.contains word (lower env user_text)) crisis_keywords.

(** [risk_label in {"sadness", "anger", "fear"} and risk_score > 0.85]. *)
Definition ai_crisis (risk_label : string) (risk_score : float) : bool :=
  bool_decide (risk_label ∈ ["sadness"; "anger"; "fear"]) && (0.85 <? risk_score)%float.

(** Lines 70 to 76. *)
Definition trigger_emergency_of (emergency_settings : option EmergencySettings.t)
    (user_text : string) : bool :=
  match emergency_settings with
  | Some user_settings =>
      let code_word := EmergencySettings.code_word user_settings in
      match nonempty code_word with
      | Some code_word => Py.contains code_word (lower env user_text)
      | None => false
      end
  | None => false
  end.

(** Step 5: [analyze_mood]. *)
Definition analyze_mood (data : option AnalyzeMoodData.t) (now : datetime)
    (db : Store) : Store * Response :=
  match data with
  | Some {| AnalyzeMoodData.text := Some user_text;
            AnalyzeMoodData.user_id := Some user_id |} =>
      try_except db (
        result ← emotion_classifier env user_text;
        let emotion := Classification.label result in
        let confidence := Py.round (Classification.score result) 2 in
        let keyword_crisis := keyword_crisis user_text in
        risk_result ← risk_classifier env user_text;
        let risk_label := lower env (Classification.label risk_result) in
        let risk_score := Classification.score risk_result in
        let ai_crisis := ai_crisis risk_label risk_score in
        let crisis_detected := keyword_crisis || ai_crisis in
        emergency_settings ← firestore (user_emergency_settings db !! user_id);
        let trigger_emergency := trigger_emergency_of emergency_settings user_text in
        db' ← firestore
          {| user_emergency_settings := user_emergency_settings db;
             mood_entries := mood_entries db ++ [
               {| MoodEntry.user_id := user_id;
                  MoodEntry.text := user_text;
                  MoodEntry.emotion := Some emotion;
                  MoodEntry.confidence := confidence;
                  MoodEntry.crisis := crisis_detected;
                  MoodEntry.timestamp := Some now;
                  MoodEntry.risk_score := Some (Py.round risk_score 2);
                  MoodEntry.risk_label := risk_label;
                  MoodEntry.trigger_emergency := trigger_emergency |} ];
             user_checkins := user_checkins db |};
        Ok (db', jsonify (MoodBody
          {| MoodAnalysis.emotion := emotion;
             MoodAnalysis.confidence := confidence;
             MoodAnalysis.crisis := crisis_detected;
             MoodAnalysis.risk_score := Py.round risk_score 2;
             MoodAnalysis.risk_label := risk_label;
             MoodAnalysis.trigger_emergency := trigger_emergency;
             MoodAnalysis.message := "Entry saved to Firebase successfully" |})))
  | _ => (db, jsonify_error "Missing text or user_id" 400)
  end.

(** Step 6: [set_emergency_code]. *)
Definition set_emergency_code (data : option SetEmergencyData.t) (now : datetime)
    (db : Store) : Store * Response :=
  match data with
  | Some {| SetEmergencyData.user_id := Some user_id;
            SetEmergencyData.code_word := Some code_word;
            SetEmergencyData.emergency_contact := Some emergency_contact |} =>
      try_except db (
        db' ← firestore
          {| user_emergency_settings :=
               <[user_id :=
                   {| EmergencySettings.code_word := Some (lower env code_word);
                      EmergencySettings.emergency_contact := emergency_contact;
                      EmergencySettings.updated_at := now |}]>
               (user_emergency_settings db);
             mood_entries := mood_entries db;
             user_checkins := user_checkins db |};
        Ok (db', jsonify (MessageBody "Emergency code and contact saved successfully.")))
  | _ => (db, jsonify_error "Missing fields" 400)
  end.

(** Step 7: [get_mood_trends]. *)
Definition get_mood_trends (data : option MoodTrendsData.t) (db : Store) : Store * Response :=
  match data with
  | None =>
      try_except db (Raise (Exn "AttributeError" "'NoneType' object has no attribute 'get'"))
  | Some data =>
      let user_id := MoodTrendsData.user_id data in
      match nonempty user_id with
      | Some user_id =>
          try_except db (
            entries ← firestore
              (filter (fun doc => MoodEntry.user_id doc = user_id) (mood_entries db));
            trends ← aggregate_trends entries;
            Ok (db, jsonify (TrendsBody user_id trends "Mood trends calculated successfully")))
      | None => (db, jsonify_error "Missing user_id" 400)
      end
  end.

(** Step 9: [submit_checkin]. *)
Definition submit_checkin (data : option CheckInData.t) (now : datetime)
    (db : Store) : Store * Response :=
  match data with
  | None =>
      try_except db (Raise (Exn "AttributeError" "'NoneType' object has no attribute 'get'"))
  | Some data =>
      let user_id := CheckInData.user_id data in
      let slider := CheckInData.slider_value data in
      let tags := default [] (CheckInData.tags data) in
      let note := default "" (CheckInData.note data) in
      (* [if not user_id or slider is None or not tags] *)
      match nonempty user_id, slider, tags with
      | Some user_id, Some slider, _ :: _ =>
          try_except db (
            db' ← firestore
              {| user_emergency_settings := user_emergency_settings db;
                 mood_entries := mood_entries db;
                 user_checkins :=
                   <[user_id := default [] (user_checkins db !! user_id) ++ [
                       {| CheckIn.slider_value := slider;
                          CheckIn.tags := tags;
                          CheckIn.note := note;
                          CheckIn.timestamp := now |} ]]>
                   (user_checkins db) |};
            Ok (db', jsonify (MessageBody "Check-in saved successfully")))
      | _, _, _ => (db, jsonify_error "Missing required fields" 400)
      end
  end.

End Handlers.

(** The handlers' requests, and the stores they can produce from an empty
    database. *)
Inductive Request :=
  | AnalyzeMood (data : option AnalyzeMoodData.t)
  | SetEmergency (data : option SetEmergencyData.t)
  | GetMoodTrends (data : option MoodTrendsData.t)
  | SubmitCheckIn (data : option CheckInData.t).

Definition handle (env : Env) (r : Request) (now : datetime) (db : Store) : Store * Response :=
  match r with
  | AnalyzeMood data => analyze_mood env data now db
  | SetEmergency data => set_emergency_code env data now db
  | GetMoodTrends data => get_mood_trends env data db
  | SubmitCheckIn data => submit_checkin env data now db
  end.

(** [reachable lower db]: [db] results from serving requests, starting from
    the empty database; classifier answers and outages may change from one
    request to the next, [str.lower] does not. *)
Inductive reachable (lower_fn : string → string) : Store → Prop :=
  | reachable_empty : reachable lower_fn empty_store
  | reachable_step env r now db :
      lower env = lower_fn →
      reachable lower_fn db →
      reachable lower_fn (handle env r now db).1.

(** The JSON object [{"user_id": user_id, "text": text}]. *)
Definition text_entry (user_id text : string) : option AnalyzeMoodData.t :=
  Some {| AnalyzeMoodData.text := Some text; AnalyzeMoodData.user_id := Some user_id |}.

(** ** Concrete environments and inputs, for evaluation *)

Module Example.

Definition answer (label : string) (score : float) : result Classification.t :=
  Ok {| Classification.label := label; Classification.score := score |}.

Definition timed_out : exn := Exn "TimeoutError" "timed out".

(** Both pipelines answer [label] with [score] on every text. *)
Definition env (label : string) (score : float) : Env :=
  {| lower := Py.ascii_lower;
     emotion_classifier := fun _ => answer label score;
     risk_classifier := fun _ => answer label score;
     firestore_fault := None |}.

(** The same, with [str.lower] as CPython computes it on ASCII and Greek
    text. *)
Definition env_str_lower (label : string) (score : float) : Env :=
  {| lower := Py.str_lower;
     emotion_classifier := fun _ => answer label score;
     risk_classifier := fun _ => answer label score;
     firestore_fault := None |}.

(** The pipelines time out. *)
Definition env_classifier_down : Env :=
  {| lower := Py.ascii_lower;
     emotion_classifier := fun _ => Raise timed_out;
     risk_classifier := fun _ => Raise timed_out;
     firestore_fault := None |}.

(** The pipelines answer, the Firestore backend times out. *)
Definition env_firestore_down : Env :=
  {| lower := Py.ascii_lower;
     emotion_classifier := fun _ => answer "joy" 0.99;
     risk_classifier := fun _ => answer "joy" 0.99;
     firestore_fault := Some timed_out |}.

Definition noon (d : Z) : datetime :=
  {| year := 2025; month := 3; day := d;
     hour := 12; minute := 0; second := 0; microsecond := 0 |}.

(** A stored entry of user [u1] with the given day and risk score. *)
Definition entry (d : Z) (emotion : string) (risk_score : float) : MoodEntry.t :=
  {| MoodEntry.user_id := "u1";
     MoodEntry.text := "";
     MoodEntry.emotion := Some emotion;
     MoodEntry.confidence := risk_score;
     MoodEntry.crisis := false;
     MoodEntry.timestamp := Some (noon d);
     MoodEntry.risk_score := Some risk_score;
     MoodEntry.risk_label := emotion;
     MoodEntry.trigger_emergency := false |}.

End Example.

(** * Vocabulary of the statements *)

(** ** Reading a response *)

Definition analysis_of (resp : Response) : option MoodAnalysis.t :=
  match body resp with
  | MoodBody a => Some a
  | _ => None
  end.

Definition crisis_of (resp : Response) : option bool :=
  MoodAnalysis.crisis <$> analysis_of resp.

Definition trigger_emergency_of_response (resp : Response) : option bool :=
  MoodAnalysis.trigger_emergency <$> analysis_of resp.

(** The pipelines answer [r] and [rr] on [text] and Firestore is reachable. *)
Definition answers (env : Env) (text : string) (r rr : Classification.t) : Prop :=
  emotion_classifier env text = Ok r ∧
  risk_classifier env text = Ok rr ∧
  firestore_fault env = None.

(** The entry and the body that [analyze_mood] builds from the answers. *)
Definition entry_of (env : Env) (db : Store) (user_id user_text : string)
    (now : datetime) (r rr : Classification.t) : MoodEntry.t :=
  {| MoodEntry.user_id := user_id;
     MoodEntry.text := user_text;
     MoodEntry.emotion := Some (Classification.label r);
     MoodEntry.confidence := Py.round (Classification.score r) 2;
     MoodEntry.crisis :=
       keyword_crisis env user_text ||
       ai_crisis (lower env (Classification.label rr)) (Classification.score rr);
     MoodEntry.timestamp := Some now;
     MoodEntry.risk_score := Some (Py.round (Classification.score rr) 2);
     MoodEntry.risk_label := lower env (Classification.label rr);
     MoodEntry.trigger_emergency :=
       trigger_emergency_of env (user_emergency_settings db !! user_id) user_text |}.

Definition analysis_body (e : MoodEntry.t) : MoodAnalysis.t :=
  {| MoodAnalysis.emotion := default "" (MoodEntry.emotion e);
     MoodAnalysis.confidence := MoodEntry.confidence e;
     MoodAnalysis.crisis := MoodEntry.crisis e;
     MoodAnalysis.risk_score := default 0%float (MoodEntry.risk_score e);
     MoodAnalysis.risk_label := MoodEntry.risk_label e;
     MoodAnalysis.trigger_emergency := MoodEntry.trigger_emergency e;
     MoodAnalysis.message := "Entry saved to Firebase successfully" |}.

Definition add_mood_entry (e : MoodEntry.t) (db : Store) : Store :=
  {| user_emergency_settings := user_emergency_settings db;
     mood_entries := mood_entries db ++ [e];
     user_checkins := user_checkins db |}.

(** The lowercase of [needle] occurs in the lowercase of [haystack]: the
    comparison of lowercased strings that the handlers make.  On ASCII text
    it is containment whatever the case of the letters; in general it is
    not, since [str.lower] looks at the place of a letter in its word. *)
Definition lowercased_contains (env : Env) (needle haystack : string) : bool :=
  Py.contains (lower env needle) (lower env haystack).

(** Every stored code word is its own lowercase. *)
Definition code_words_lowercased (lower_fn : string → string) (db : Store) : Prop :=
  ∀ user_id settings code_word,
    user_emergency_settings db !! user_id = Some settings →
    EmergencySettings.code_word settings = Some code_word →
    lower_fn code_word = code_word.

(** The JSON object of a [setEmergency] request with all three keys. *)
Definition emergency_setup (user_id code_word emergency_contact : string) : Request :=
  SetEmergency (Some {| SetEmergencyData.user_id := Some user_id;
                        SetEmergencyData.code_word := Some code_word;
                        SetEmergencyData.emergency_contact := Some emergency_contact |}).

(** The JSON object of a [submitCheckIn] request. *)
Definition checkin (user_id : option string) (slider_value : option number)
    (tags : option (list string)) (note : option string) : option CheckInData.t :=
  Some {| CheckInData.user_id := user_id;
          CheckInData.slider_value := slider_value;
          CheckInData.tags := tags;
          CheckInData.note := note |}.

(** The store after a check-in of [user_id] is appended. *)
Definition add_checkin (user_id : string) (c : CheckIn.t) (db : Store) : Store :=
  {| user_emergency_settings := user_emergency_settings db;
     mood_entries := mood_entries db;
     user_checkins := <[user_id := default [] (user_checkins db !! user_id) ++ [c]]> (user_checkins db) |}.

(** ** Reading the aggregation *)

(** The key under which [get_mood_trends] files a document, if any. *)
Definition date_of (doc : MoodEntry.t) : option string :=
  to_date <$> MoodEntry.timestamp doc.

(** The date group of [date]: what the documents of that date contribute to
    [grouped_data], in retrieval order. *)
Definition entries_on (date : string) (docs : list MoodEntry.t) : list Item.t :=
  item_of <$> filter (λ doc, date_of doc = Some date) docs.

(** [grouped_data.get(date)]. *)
Fixpoint assoc (date : string) (g : list (string * list Item.t)) : option (list Item.t) :=
  match g with
  | [] => None
  | (k, l) :: g' => if String.eqb k date then Some l else assoc date g'
  end.

(** A confidence as the pipelines give it: [+0.0], or a positive float that
    is at most 1. *)
Definition in_unit_interval (x : float) : bool :=
  match Prim2SF x with
  | S754_zero s => negb s
  | S754_finite false m e =>
      if 0 <=? e then Z.pos m * 2 ^ e <=? 1 else Z.pos m <=? 2 ^ (- e)
  | _ => false
  end.

(** The float that [round(x, 2)] returns for [k] hundredths. *)
Definition cent (k : nat) : float :=
  match k with
  | O => 0%float
  | S _ => Py.float_of_ratio false (Pos.of_nat k) 100
  end.

(** The trend of [date] in the outcome of an aggregation. *)
Definition trend_on (date : string) (r : result (gmap string DailyTrend.t)) : option DailyTrend.t :=
  match r with
  | Ok trends => trends !! date
  | Raise _ => None
  end.

(** The JSON object [{"user_id": user_id}] of a [getMoodTrends] request. *)
Definition trends_of_user (user_id : string) : option MoodTrendsData.t :=
  Some {| MoodTrendsData.user_id := Some user_id |}.

(** A store that holds the given mood entries and nothing else. *)
Definition store_of_entries (docs : list MoodEntry.t) : Store :=
  {| user_emergency_settings := ∅; mood_entries := docs; user_checkins := ∅ |}.

(** Whether a trend is present and its average compares equal to [x]. *)
Definition average_is (x : float) (t : option DailyTrend.t) : bool :=
  match t with
  | Some t => PrimFloat.eqb (DailyTrend.average_risk_score t) x
  | None => false
  end.

(** ** The sample variance, as a statistics text defines it *)

Definition sum_Q (l : list Q) : Q := fold_right Qplus 0%Q l.

Definition mean_Q (l : list Q) : Q := (sum_Q l / inject_Z (Z.of_nat (length l)))%Q.

(** The sum of the squared deviations from [c]. *)
Definition squared_deviations (c : Q) (l : list Q) : Q :=
  sum_Q (map (fun v => ((v - c) * (v - c))%Q) l).

(** [s^2 = sum (x - mean)^2 / (n - 1)]. *)
Definition textbook_variance (l : list Q) : Q :=
  (squared_deviations (mean_Q l) l / (inject_Z (Z.of_nat (length l)) - 1))%Q.

(** The exact values of a list of finite floats. *)
Fixpoint exact_values (l : list float) : option (list Q) :=
  match l with
  | [] => Some []
  | x :: l' =>
      match Py.exact_ratio x, exact_values l' with
      | Some v, Some vs => Some (v :: vs)
      | _, _ => None
      end
  end.

(** The crisis phrases that the source writes with a capital letter. *)
Definition capitalised_keywords : list string :=
  ["I want to disappear"; "I hate living"; "I’m done with life"; "I want it to end"].

(** * The remaining handler *)

(** The parsed JSON object of a [logVisualEmotion] request. *)
Module VisualData.
Record t := {
  user_id : option string;
  emotion : option string;
  confidence : option number
}.
End VisualData.

(** A document of [visual_mood_entries]. *)
Module VisualEntry.
Record t := {
  user_id : string;
  emotion : string;
  confidence : option number;
  timestamp : datetime
}.
End VisualEntry.

(** The success body of [log_visual_emotion]. *)
Module VisualReply.
Record t := {
  message : string;
  user_id : string;
  emotion : string;
  confidence : option number
}.
End VisualReply.

Inductive VisualBody :=
  | VisualError (error : string)
  | VisualLogged (reply : VisualReply.t).

Record VisualResponse := { visual_status : Z; visual_body : VisualBody }.

(** Step 8: [log_visual_emotion].  The collection [visual_mood_entries] is
    written here and read nowhere, so it is a state of its own beside
    [Store]. *)
Definition log_visual_emotion (env : Env) (data : option VisualData.t) (now : datetime)
    (visual_mood_entries : list VisualEntry.t) : list VisualEntry.t * VisualResponse :=
  match data with
  | Some {| VisualData.user_id := Some user_id;
            VisualData.emotion := Some emotion;
            VisualData.confidence := confidence |} =>
      match
        entries' ← firestore env
          (visual_mood_entries ++ [
             {| VisualEntry.user_id := user_id;
                VisualEntry.emotion := emotion;
                VisualEntry.confidence := confidence;
                VisualEntry.timestamp := now |} ]);
        Ok (entries',
            {| visual_status := 200;
               visual_body := VisualLogged
                 {| VisualReply.message := "Visual emotion logged successfully";
                    VisualReply.user_id := user_id;
                    VisualReply.emotion := emotion;
                    VisualReply.confidence := confidence |} |})
      with
      | Ok r => r
      | Raise e =>
          (visual_mood_entries,
           {| visual_status := 500; visual_body := VisualError (str_exn e) |})
      end
  | _ =>
      (visual_mood_entries,
       {| visual_status := 400; visual_body := VisualError "Missing user_id or emotion" |})
  end.

(** * Further vocabulary *)

(** A date of the calendar with a four-digit year, 1000 to 9999.  Below
    1000 the digits that [strftime] prints for ['%Y'] depend on the platform
    (glibc does not pad with zeros), so such years are left out. *)
Definition calendar_date (t : datetime) : Prop :=
  1000 ≤ year t ≤ 9999 ∧ 1 ≤ month t ≤ 12 ∧ 1 ≤ day t ≤ 31.

(** Serving a sequence of requests, each in its own environment and at its
    own time. *)
Definition serve_all (requests : list (Env * Request * datetime)) (db : Store) : Store :=
  fold_left (fun db '(env, r, now) => (handle env r now db).1) requests db.

(** The response is an error body. *)
Definition is_error (resp : Response) : bool :=
  match body resp with
  | ErrorBody _ => true
  | _ => false
  end.

(** The trends of a [getMoodTrends] response. *)
Definition trends_of_response (resp : Response) : option (gmap string DailyTrend.t) :=
  match body resp with
  | TrendsBody _ trends _ => Some trends
  | _ => None
  end.

(** The request writes a mood entry of [user_id] if it is served. *)
Definition analyzes_for (user_id : string) (r : Request) : Prop :=
  match r with
  | AnalyzeMood (Some data) => AnalyzeMoodData.user_id data = Some user_id
  | _ => False
  end.

(** The number of entries of a group that carry the emotion [e]. *)
Definition emotion_count (e : string) (entries : list Item.t) : nat :=
  length (filter (λ entry, Item.emotion entry = Some e) entries).

(** Another moment of day [d]. *)
Definition evening (d : Z) : datetime :=
  {| year := 2025; month := 3; day := d;
     hour := 21; minute := 30; second := 15; microsecond := 0 |}.

(** [db'] holds everything that [db] holds: the mood entries and every
    user's check-ins of [db] in their order, at the front, and settings for
    every user that has some in [db]. *)
Definition extends (db db' : Store) : Prop :=
  mood_entries db `prefix_of` mood_entries db' ∧
  (∀ user_id, default [] (user_checkins db !! user_id)
                `prefix_of` default [] (user_checkins db' !! user_id)) ∧
  dom (user_emergency_settings db) ⊆ dom (user_emergency_settings db').

(** * Properties *)

Lemma analyze_mood_answers env user_id user_text now db r rr :
  answers env user_text r rr →
  analyze_mood env (text_entry user_id user_text) now db =
    let e := entry_of env db user_id user_text now r rr in
    (add_mood_entry e db, jsonify (MoodBody (analysis_body e))).
Proof.
  intros (Hr & Hrr & Hup).
  unfold analyze_mood, text_entry, try_except, firestore.
  rewrite Hr. cbn. rewrite Hrr. cbn. rewrite Hup. reflexivity.
Qed.

(** A classifier failure ends the request before Firestore is touched. *)
Lemma analyze_mood_classifier_raises env user_id user_text now db e :
  emotion_classifier env user_text = Raise e ∨
  (is_ok (emotion_classifier env user_text) = true ∧ risk_classifier env user_text = Raise e) →
  analyze_mood env (text_entry user_id user_text) now db =
    (db, jsonify_error (str_exn e) 500).
Proof.
  unfold analyze_mood, text_entry, try_except.
  intros [He | [Hok Hrisk]].
  - rewrite He. reflexivity.
  - destruct (emotion_classifier env user_text); [| discriminate].
    cbn. rewrite Hrisk. reflexivity.
Qed.

(** An outage of Firestore gives the same envelope. *)
Lemma analyze_mood_firestore_raises env user_id user_text now db r rr e :
  emotion_classifier env user_text = Ok r →
  risk_classifier env user_text = Ok rr →
  firestore_fault env = Some e →
  analyze_mood env (text_entry user_id user_text) now db =
    (db, jsonify_error (str_exn e) 500).
Proof.
  intros Hr Hrr Hdown.
  unfold analyze_mood, text_entry, try_except, firestore.
  rewrite Hr. cbn. rewrite Hrr. cbn. rewrite Hdown. reflexivity.
Qed.

(** ** The scenarios of the specification, evaluated *)

Example end_it_all_is_a_crisis :
  crisis_of (analyze_mood (Example.env "joy" 0.99) (text_entry "u1" "I want to end it all")
               (Example.noon 1) empty_store).2 = Some true.
Proof. vm_compute. reflexivity. Qed.

Example shouted_keyword_is_a_crisis :
  crisis_of (analyze_mood (Example.env "joy" 0.99) (text_entry "u1" "Everything feels HOPELESS")
               (Example.noon 1) empty_store).2 = Some true.
Proof. vm_compute. reflexivity. Qed.

Example two_scores_one_day :
  let t := trend_on "2025-03-01"
             (aggregate_trends [Example.entry 1 "joy" 0.9; Example.entry 1 "sadness" 0.1]) in
  (DailyTrend.average_risk_score <$> t) = Some 0.5%float ∧
  (DailyTrend.mood_swing <$> t) = Some false ∧
  Py.stdev [0.9; 0.1]%float = Ok 0.565685424949238%float.
Proof. vm_compute. repeat split. Qed.

Example round_is_half_even_on_the_exact_value :
  Py.round 0.125 2 = 0.12%float ∧ Py.round 0.375 2 = 0.38%float ∧
  Py.round 2.675 2 = 2.67%float ∧ Py.round (-0.001) 2 = (-0)%float.
Proof. vm_compute. repeat split. Qed.

Example to_date_pads : to_date (Example.noon 7) = "2025-03-07".
Proof. reflexivity. Qed.

(** [str.lower] writes a capital sigma at the end of a word as the final
    sigma, and as the medial sigma elsewhere. *)
Example str_lower_final_sigma :
  Py.str_lower "ΑΣ" = "ας" ∧ Py.str_lower "ΑΣΑ" = "ασα" ∧
  Py.str_lower "ΟΔΥΣΣΕΥΣ, Pine'APPLE" = "οδυσσευς, pine'apple".
Proof. repeat split; vm_compute; reflexivity. Qed.

(** ** The crisis decision *)

Lemma keyword_crisis_intro env user_text word :
  word ∈ crisis_keywords →
  Py.contains word (lower env user_text) = true →
  keyword_crisis env user_text = true.
Proof.
  intros Hin Hc. unfold keyword_crisis.
  apply existsb_exists. exists word. split; [| exact Hc].
  by apply list_elem_of_In.
Qed.

(** A crisis phrase that is its own lowercase is found in any text that
    contains it, whatever the case and whatever the pipelines answer. *)
Lemma lowercase_phrase_detected env user_id user_text now db r rr word :
  answers env user_text r rr →
  word ∈ crisis_keywords →
  lower env word = word →
  lowercased_contains env word user_text = true →
  crisis_of (analyze_mood env (text_entry user_id user_text) now db).2 = Some true.
Proof.
  intros Hans Hin Hlow Hc. rewrite (analyze_mood_answers _ _ _ _ _ _ _ Hans).
  unfold lowercased_contains in Hc. rewrite Hlow in Hc.
  unfold crisis_of, analysis_of, jsonify, analysis_body, entry_of.
  cbn [snd body fmap option_fmap option_map MoodAnalysis.crisis MoodEntry.crisis].
  by rewrite (keyword_crisis_intro _ _ _ Hin Hc).
Qed.

Lemma ascii_lower_char_not_capital_I c : Py.ascii_lower_char c ≠ "I"%char.
Proof. destruct c as [[] [] [] [] [] [] [] []]; discriminate. Qed.

Lemma contains_capital_I rest text :
  Py.contains (String "I" rest) (Py.ascii_lower text) = false.
Proof.
  induction text as [| c text IH]; [reflexivity |].
  cbn [Py.ascii_lower Py.contains String.prefix].
  destruct (ascii_dec "I" (Py.ascii_lower_char c)) as [Heq | _].
  - by destruct (ascii_lower_char_not_capital_I c).
  - exact IH.
Qed.

(** No text brings up a capitalised crisis phrase: the text is lowercased
    before the search, the phrase is not. *)
Lemma capitalised_keywords_never_match word text :
  word ∈ capitalised_keywords →
  word ∈ crisis_keywords ∧ Py.contains word (Py.ascii_lower text) = false.
Proof.
  unfold capitalised_keywords. rewrite !elem_of_cons, elem_of_nil.
  intros [-> | [-> | [-> | [-> | []]]]];
    (split; [unfold crisis_keywords; rewrite !elem_of_cons; tauto
            | apply contains_capital_I]).
Qed.

(** C1, evaluated where it fails: the text is the crisis phrase
    "I want to disappear" itself, so it contains that phrase whatever the
    case, and both pipelines answer joy with 0.99; [analyze_mood] stores and
    returns [crisis = false].  The phrase is written with a capital I in
    [crisis_keywords] and is searched in the lowercased text. *)
Theorem capitalised_phrase_not_detected :
  "I want to disappear" ∈ crisis_keywords ∧
  Py.contains (Py.ascii_lower "I want to disappear")
              (Py.ascii_lower "I want to disappear") = true ∧
  keyword_crisis (Example.env "joy" 0.99) "I want to disappear" = false ∧
  crisis_of (analyze_mood (Example.env "joy" 0.99)
               (text_entry "u1" "I want to disappear") (Example.noon 1) empty_store).2
    = Some false.
Proof.
  split; [| split; [| split]].
  - unfold crisis_keywords. rewrite !elem_of_cons. tauto.
  - vm_compute. reflexivity.
  - vm_compute. reflexivity.
  - vm_compute. reflexivity.
Qed.

(** C2: when the lowercased risk label is sadness, anger or fear and the
    confidence is strictly above 0.85, the crisis decision is true; when the
    confidence is exactly 0.85 the decision is the keyword check alone. *)
Theorem model_check_threshold env user_id user_text now db r rr :
  answers env user_text r rr →
  let resp := (analyze_mood env (text_entry user_id user_text) now db).2 in
  (lower env (Classification.label rr) ∈ ["sadness"; "anger"; "fear"] →
   (0.85 <? Classification.score rr)%float = true →
   crisis_of resp = Some true) ∧
  (Classification.score rr = 0.85%float →
   crisis_of resp = Some (keyword_crisis env user_text)).
Proof.
  intros Hans. rewrite (analyze_mood_answers _ _ _ _ _ _ _ Hans). cbn.
  unfold crisis_of, ai_crisis. cbn. split.
  - intros Hlabel Hscore. rewrite Hscore, bool_decide_eq_true_2 by exact Hlabel.
    by rewrite orb_true_r.
  - intros ->. replace (0.85 <? 0.85)%float with false by reflexivity.
    by rewrite andb_false_r, orb_false_r.
Qed.

Lemma model_check_threshold_witness :
  crisis_of (analyze_mood (Example.env "Fear" 0.86)
               (text_entry "u1" "fine") (Example.noon 1) empty_store).2 = Some true.
Proof.
  refine (proj1 (model_check_threshold (Example.env "Fear" 0.86) "u1" "fine"
                   (Example.noon 1) empty_store
                   {| Classification.label := "Fear"; Classification.score := 0.86 |}
                   {| Classification.label := "Fear"; Classification.score := 0.86 |}
                   _) _ _).
  - repeat split.
  - refine (bool_decide_eq_true_1 _ _). vm_compute. reflexivity.
  - vm_compute. reflexivity.
Defined.

(** C9: the model check reads the unrounded confidence while the stored and
    the returned [risk_score] are rounded to two decimals; the confidences
    0.849 and 0.851 of the same label both give the stored score 0.85, and
    only the second raises the crisis flag. *)
Theorem crisis_reads_unrounded_confidence :
  (∀ env user_id user_text now db r rr,
     answers env user_text r rr →
     let out := analyze_mood env (text_entry user_id user_text) now db in
     ∃ e a,
       mood_entries out.1 = mood_entries db ++ [e] ∧
       analysis_of out.2 = Some a ∧
       MoodEntry.risk_score e = Some (Py.round (Classification.score rr) 2) ∧
       MoodAnalysis.risk_score a = Py.round (Classification.score rr) 2 ∧
       MoodAnalysis.crisis a =
         keyword_crisis env user_text ||
         (bool_decide (lower env (Classification.label rr) ∈ ["sadness"; "anger"; "fear"])
          && (0.85 <? Classification.score rr)%float) ∧
       MoodEntry.crisis e = MoodAnalysis.crisis a) ∧
  (let out1 := analyze_mood (Example.env "sadness" 0.849)
                 (text_entry "u1" "ok") (Example.noon 1) empty_store in
   let out2 := analyze_mood (Example.env "sadness" 0.851)
                 (text_entry "u1" "ok") (Example.noon 1) empty_store in
   (MoodEntry.risk_label <$> mood_entries out1.1) = ["sadness"] ∧
   (MoodEntry.risk_label <$> mood_entries out2.1) = ["sadness"] ∧
   (MoodEntry.risk_score <$> mood_entries out1.1) = [Some 0.85%float] ∧
   (MoodEntry.risk_score <$> mood_entries out2.1) = [Some 0.85%float] ∧
   (MoodEntry.crisis <$> mood_entries out1.1) = [false] ∧
   (MoodEntry.crisis <$> mood_entries out2.1) = [true] ∧
   (MoodAnalysis.risk_score <$> analysis_of out1.2) = Some 0.85%float ∧
   (MoodAnalysis.risk_score <$> analysis_of out2.2) = Some 0.85%float ∧
   crisis_of out1.2 = Some false ∧
   crisis_of out2.2 = Some true).
Proof.
  split.
  - intros env user_id user_text now db r rr Hans.
    rewrite (analyze_mood_answers _ _ _ _ _ _ _ Hans). cbn.
    eexists _, _. repeat split.
  - vm_compute. repeat split.
Qed.

(** ** The emergency trigger *)

Lemma ascii_lower_char_idempotent c :
  Py.ascii_lower_char (Py.ascii_lower_char c) = Py.ascii_lower_char c.
Proof. destruct c as [[] [] [] [] [] [] [] []]; reflexivity. Qed.

Lemma ascii_lower_idempotent s : Py.ascii_lower (Py.ascii_lower s) = Py.ascii_lower s.
Proof.
  induction s as [| c s IH]; [reflexivity |].
  cbn [Py.ascii_lower]. by rewrite ascii_lower_char_idempotent, IH.
Qed.

Lemma analyze_mood_settings env data now db :
  user_emergency_settings (analyze_mood env data now db).1 = user_emergency_settings db.
Proof.
  unfold analyze_mood, try_except, firestore.
  destruct data as [[[user_text |] [user_id |]] |]; try reflexivity.
  destruct (emotion_classifier env user_text); [| reflexivity]. cbn.
  destruct (risk_classifier env user_text); [| reflexivity]. cbn.
  destruct (firestore_fault env); reflexivity.
Qed.

Lemma get_mood_trends_store env data db : (get_mood_trends env data db).1 = db.
Proof.
  unfold get_mood_trends, try_except, firestore.
  destruct data as [[user_id] |]; [| reflexivity]. cbn.
  destruct (nonempty user_id); [| reflexivity].
  destruct (firestore_fault env); [reflexivity |]. cbn.
  destruct (aggregate_trends _); reflexivity.
Qed.

Lemma submit_checkin_settings env data now db :
  user_emergency_settings (submit_checkin env data now db).1 = user_emergency_settings db.
Proof.
  unfold submit_checkin, try_except, firestore.
  destruct data as [[user_id slider tags note] |]; [| reflexivity]. cbn.
  destruct (nonempty user_id), slider, (default [] tags); try reflexivity.
  destruct (firestore_fault env); reflexivity.
Qed.

Lemma set_emergency_code_lowercased env data now db :
  (∀ s, lower env (lower env s) = lower env s) →
  code_words_lowercased (lower env) db →
  code_words_lowercased (lower env) (set_emergency_code env data now db).1.
Proof.
  intros Hidem Hdb. unfold set_emergency_code, try_except, firestore.
  destruct data as [[[user_id |] [code_word |] [emergency_contact |]] |]; try exact Hdb.
  destruct (firestore_fault env); [exact Hdb |]. cbn.
  intros uid settings w. cbn. rewrite lookup_insert.
  case_decide as Huid.
  - intros [= <-] [= <-]. apply Hidem.
  - apply Hdb.
Qed.

(** The stores that the handlers build only hold lowercased code words. *)
Lemma reachable_code_words_lowercased lower_fn db :
  (∀ s, lower_fn (lower_fn s) = lower_fn s) →
  reachable lower_fn db →
  code_words_lowercased lower_fn db.
Proof.
  intros Hidem Hreach. induction Hreach as [| env r now db Henv _ IH].
  - intros uid settings w Hlook. cbn in Hlook. by rewrite lookup_empty in Hlook.
  - subst lower_fn. destruct r as [data | data | data | data]; cbn [handle].
    + unfold code_words_lowercased. rewrite analyze_mood_settings. exact IH.
    + by apply set_emergency_code_lowercased.
    + rewrite get_mood_trends_store. exact IH.
    + unfold code_words_lowercased. rewrite submit_checkin_settings. exact IH.
Qed.

Lemma nonempty_Some s w : nonempty s = Some w ↔ s = Some w ∧ w ≠ "".
Proof.
  unfold nonempty. destruct s as [s |]; [| split; [discriminate | intros [[=] _]]].
  destruct (String.eqb_spec s "") as [-> | Hne].
  - split; [discriminate | intros [[= <-] Hw]; by destruct Hw].
  - split; [intros [= <-]; by split | intros [[= <-] _]; reflexivity].
Qed.

(** C3: [trigger_emergency] is true exactly when the user's settings hold a
    non-empty code word whose lowercase is a substring of the lowercased
    text; without settings for the user the request succeeds with
    [trigger_emergency] false.  The store is any store the handlers can
    build, and [str.lower] is idempotent.  The test compares lowercased
    strings: it is not containment whatever the case, as the Greek code word
    below shows. *)
Theorem emergency_trigger_iff lower_fn env user_id user_text now db r rr :
  (∀ s, lower_fn (lower_fn s) = lower_fn s) →
  lower env = lower_fn →
  reachable lower_fn db →
  answers env user_text r rr →
  let resp := (analyze_mood env (text_entry user_id user_text) now db).2 in
  is_Some (trigger_emergency_of_response resp) ∧
  (trigger_emergency_of_response resp = Some true ↔
     ∃ settings code_word,
       user_emergency_settings db !! user_id = Some settings ∧
       EmergencySettings.code_word settings = Some code_word ∧
       code_word ≠ "" ∧
       lowercased_contains env code_word user_text = true) ∧
  (user_emergency_settings db !! user_id = None →
     status resp = 200 ∧ trigger_emergency_of_response resp = Some false).
Proof.
  intros Hidem Henv Hreach Hans.
  pose proof (reachable_code_words_lowercased _ _ Hidem Hreach) as Hlow.
  rewrite (analyze_mood_answers _ _ _ _ _ _ _ Hans). cbn.
  unfold trigger_emergency_of_response, lowercased_contains. cbn.
  split; [eauto |]. split.
  - unfold trigger_emergency_of.
    destruct (user_emergency_settings db !! user_id) as [settings |] eqn:Hlook.
    + destruct (nonempty (EmergencySettings.code_word settings)) as [w |] eqn:Hw.
      * apply nonempty_Some in Hw as [Hw Hne].
        assert (lower env w = w) as Hww by (rewrite Henv; eapply Hlow; eauto).
        split.
        -- intros [= Hc]. exists settings, w. by rewrite Hww.
        -- intros (s' & w' & [= <-] & Hw' & _ & Hc).
           rewrite Hw in Hw'. injection Hw' as <-. rewrite Hww in Hc. by rewrite Hc.
      * split; [discriminate |].
        intros (s' & w' & [= <-] & Hw' & Hne & _).
        assert (nonempty (EmergencySettings.code_word settings) = Some w') as Hn
          by (by apply nonempty_Some).
        congruence.
    + split; [discriminate |]. intros (s' & w' & [=] & _).
  - intros ->. done.
Qed.

Lemma emergency_trigger_iff_witness :
  trigger_emergency_of_response
    (analyze_mood (Example.env "joy" 0.5) (text_entry "u1" "I'd like a PINEAPPLE pizza")
       (Example.noon 2)
       (handle (Example.env "joy" 0.5) (emergency_setup "u1" "Pineapple" "112")
          (Example.noon 1) empty_store).1).2 = Some true.
Proof.
  refine (proj2 (proj1 (proj2
    (emergency_trigger_iff Py.ascii_lower (Example.env "joy" 0.5) "u1"
       "I'd like a PINEAPPLE pizza" (Example.noon 2)
       (handle (Example.env "joy" 0.5) (emergency_setup "u1" "Pineapple" "112")
          (Example.noon 1) empty_store).1
       {| Classification.label := "joy"; Classification.score := 0.5 |}
       {| Classification.label := "joy"; Classification.score := 0.5 |}
       ascii_lower_idempotent eq_refl _ _))) _).
  - apply reachable_step; [reflexivity | apply reachable_empty].
  - repeat split.
  - eexists _, _. split; [vm_compute; reflexivity |].
    split; [reflexivity |]. split; [discriminate |]. vm_compute. reflexivity.
Defined.

(** C3 as stated fails.  The user configures the code word "ΑΣ" and then
    writes "ΑΣΑ": the text contains the code word letter for letter, so it
    contains it whatever the case.  [set_emergency_code] stores the
    lowercase "ας", with a final sigma, [analyze_mood] searches it in the
    lowercased text "ασα", with a medial sigma, and [trigger_emergency] is
    false. *)
Lemma verbatim_code_word_not_triggered :
  reachable Py.str_lower
    (handle (Example.env_str_lower "joy" 0.5) (emergency_setup "u1" "ΑΣ" "112")
       (Example.noon 1) empty_store).1 ∧
  (∃ settings,
     user_emergency_settings
       (handle (Example.env_str_lower "joy" 0.5) (emergency_setup "u1" "ΑΣ" "112")
          (Example.noon 1) empty_store).1 !! "u1" = Some settings ∧
     EmergencySettings.code_word settings = Some "ας") ∧
  Py.contains "ΑΣ" "ΑΣΑ" = true ∧
  lowercased_contains (Example.env_str_lower "joy" 0.5) "ας" "ΑΣΑ" = false ∧
  analyze_mood (Example.env_str_lower "joy" 0.5) (text_entry "u1" "ΑΣΑ") (Example.noon 2)
    (handle (Example.env_str_lower "joy" 0.5) (emergency_setup "u1" "ΑΣ" "112")
       (Example.noon 1) empty_store).1
  = (add_mood_entry
       {| MoodEntry.user_id := "u1"; MoodEntry.text := "ΑΣΑ";
          MoodEntry.emotion := Some "joy"; MoodEntry.confidence := 0.5;
          MoodEntry.crisis := false; MoodEntry.timestamp := Some (Example.noon 2);
          MoodEntry.risk_score := Some 0.5%float; MoodEntry.risk_label := "joy";
          MoodEntry.trigger_emergency := false |}
       (handle (Example.env_str_lower "joy" 0.5) (emergency_setup "u1" "ΑΣ" "112")
          (Example.noon 1) empty_store).1,
     {| status := 200;
        body := MoodBody
          {| MoodAnalysis.emotion := "joy"; MoodAnalysis.confidence := 0.5;
             MoodAnalysis.crisis := false; MoodAnalysis.risk_score := 0.5;
             MoodAnalysis.risk_label := "joy"; MoodAnalysis.trigger_emergency := false;
             MoodAnalysis.message := "Entry saved to Firebase successfully" |} |}).
Proof.
  split; [apply reachable_step; [reflexivity | apply reachable_empty] |].
  split; [eexists; split; vm_compute; reflexivity |].
  split; [reflexivity |].
  split; [vm_compute; reflexivity |].
  vm_compute. reflexivity.
Qed.

(** With the ASCII lowercasing the comparison of lowercased strings does
    find every verbatim occurrence. *)
Lemma prefix_ascii_lower w t :
  String.prefix w t = true →
  String.prefix (Py.ascii_lower w) (Py.ascii_lower t) = true.
Proof.
  revert t. induction w as [| a w IH]; intros [| b t]; cbn; try done.
  destruct (ascii_dec a b) as [-> | _]; [| discriminate].
  intros H. destruct (ascii_dec (Py.ascii_lower_char b) (Py.ascii_lower_char b)); [auto | done].
Qed.

Lemma contains_ascii_lower w t :
  Py.contains w t = true →
  Py.contains (Py.ascii_lower w) (Py.ascii_lower t) = true.
Proof.
  induction t as [| b t IH].
  - cbn. rewrite !orb_false_r. apply (prefix_ascii_lower w EmptyString).
  - cbn [Py.contains Py.ascii_lower]. intros [H | H]%orb_true_iff; apply orb_true_iff.
    + left. apply (prefix_ascii_lower w (String b t) H).
    + right. by apply IH.
Qed.

(** ** Failures *)

(** C4 as stated fails: a classifier time-out and a Firestore time-out give
    the same response, so nothing in the response says that the classifier
    was unavailable. *)
Lemma classifier_failure_kind_not_surfaced :
  analyze_mood Example.env_classifier_down (text_entry "u1" "ok") (Example.noon 1) empty_store
    = analyze_mood Example.env_firestore_down (text_entry "u1" "ok") (Example.noon 1) empty_store ∧
  ¬ ∃ classifier_unavailable : Response → bool,
      (∀ env user_id user_text now db e,
         emotion_classifier env user_text = Raise e →
         classifier_unavailable
           (analyze_mood env (text_entry user_id user_text) now db).2 = true) ∧
      (∀ env user_id user_text now db r rr e,
         emotion_classifier env user_text = Ok r →
         risk_classifier env user_text = Ok rr →
         firestore_fault env = Some e →
         classifier_unavailable
           (analyze_mood env (text_entry user_id user_text) now db).2 = false).
Proof.
  split; [reflexivity |].
  intros (k & Hclassifier & Hstore).
  specialize (Hclassifier Example.env_classifier_down "u1" "ok" (Example.noon 1)
                empty_store Example.timed_out eq_refl).
  specialize (Hstore Example.env_firestore_down "u1" "ok" (Example.noon 1) empty_store
                _ _ Example.timed_out eq_refl eq_refl eq_refl).
  cbn in Hclassifier, Hstore. congruence.
Qed.

(** C4, amended: when a pipeline raises [e], [analyze_mood] answers with
    status 500 and the body [{"error": str(e)}], the store is unchanged (no
    mood entry is written) and the body carries no analysis, hence neither
    [crisis] nor [trigger_emergency]. *)
Theorem classifier_failure_surfaces_error env user_id user_text now db e :
  emotion_classifier env user_text = Raise e ∨
  (is_ok (emotion_classifier env user_text) = true ∧
   risk_classifier env user_text = Raise e) →
  let out := analyze_mood env (text_entry user_id user_text) now db in
  out.1 = db ∧
  out.2 = {| status := 500; body := ErrorBody (str_exn e) |} ∧
  crisis_of out.2 = None ∧
  trigger_emergency_of_response out.2 = None.
Proof.
  intros H. rewrite (analyze_mood_classifier_raises _ _ _ _ _ _ H). cbn.
  repeat split.
Qed.

Lemma classifier_failure_surfaces_error_witness :
  (analyze_mood Example.env_classifier_down (text_entry "u1" "I feel hopeless")
     (Example.noon 1) empty_store).1 = empty_store.
Proof.
  exact (proj1 (classifier_failure_surfaces_error Example.env_classifier_down "u1"
                  "I feel hopeless" (Example.noon 1) empty_store Example.timed_out
                  (or_introl eq_refl))).
Defined.

(** ** Check-ins *)

(** Status 400 is the validation error of this program: a handler answers
    with it only from its missing-field test, before any call that can
    raise, and then leaves the store as it was. *)
Lemma status_400_is_validation env r now db :
  status (handle env r now db).2 = 400 →
  (handle env r now db).1 = db ∧
  ∃ error,
    body (handle env r now db).2 = ErrorBody error ∧
    error ∈ ["Missing text or user_id"; "Missing fields"; "Missing user_id";
             "Missing required fields"].
Proof.
  assert (∀ b : result (Store * Response),
            (∀ r, b = Ok r → status r.2 = 200) →
            status (try_except db b).2 ≠ 400) as Htry.
  { intros [r0 | e] Hb; cbn; [rewrite (Hb r0 eq_refl) |]; discriminate. }
  destruct r as [data | data | data | data]; cbn [handle].
  - unfold analyze_mood.
    destruct data as [[[user_text |] [user_id |]] |];
      try (intros _; split; [reflexivity |]; eexists; split; [reflexivity |];
           rewrite !elem_of_cons; tauto).
    intros H. exfalso. revert H. apply Htry.
    unfold firestore. intros r0.
    destruct (emotion_classifier env user_text); [| discriminate]. cbn.
    destruct (risk_classifier env user_text); [| discriminate]. cbn.
    destruct (firestore_fault env); [discriminate |]. cbn. by intros [= <-].
  - unfold set_emergency_code.
    destruct data as [[[user_id |] [code_word |] [emergency_contact |]] |];
      try (intros _; split; [reflexivity |]; eexists; split; [reflexivity |];
           rewrite !elem_of_cons; tauto).
    intros H. exfalso. revert H. apply Htry.
    unfold firestore. intros r0.
    destruct (firestore_fault env); [discriminate |]. cbn. by intros [= <-].
  - unfold get_mood_trends.
    destruct data as [[user_id] |]; [| discriminate]. cbn.
    destruct (nonempty user_id) as [uid |];
      [| intros _; split; [reflexivity |]; eexists; split; [reflexivity |];
         rewrite !elem_of_cons; tauto].
    intros H. exfalso. revert H. apply Htry.
    unfold firestore. intros r0.
    destruct (firestore_fault env); [discriminate |]. cbn.
    destruct (aggregate_trends _); [| discriminate]. cbn. by intros [= <-].
  - unfold submit_checkin.
    destruct data as [[user_id slider tags note] |]; [| discriminate]. cbn.
    destruct (nonempty user_id) as [uid |], slider as [v |], (default [] tags) as [| t ts];
      try (intros _; split; [reflexivity |]; eexists; split; [reflexivity |];
           rewrite !elem_of_cons; tauto).
    intros H. exfalso. revert H. apply Htry.
    unfold firestore. intros r0.
    destruct (firestore_fault env); [discriminate |]. cbn. by intros [= <-].
Qed.

(** C8: a check-in whose [tags] are empty (or missing, which reads as the
    empty list) is answered with status 400, the validation error of this
    program, and the store is unchanged. *)
Theorem empty_tags_rejected env user_id slider_value tags note now db :
  tags = None ∨ tags = Some [] →
  submit_checkin env (checkin user_id slider_value tags note) now db =
    (db, {| status := 400; body := ErrorBody "Missing required fields" |}).
Proof.
  intros [-> | ->]; unfold submit_checkin, checkin; cbn;
    destruct (nonempty user_id), slider_value; reflexivity.
Qed.

Lemma empty_tags_rejected_witness :
  submit_checkin (Example.env "joy" 0.5) (checkin (Some "u1") (Some (PyInt 7)) (Some []) None)
    (Example.noon 1) empty_store =
    (empty_store, {| status := 400; body := ErrorBody "Missing required fields" |}).
Proof.
  exact (empty_tags_rejected (Example.env "joy" 0.5) (Some "u1") (Some (PyInt 7)) (Some [])
           None (Example.noon 1) empty_store (or_intror eq_refl)).
Defined.

(** C10: the validation of a check-in answers 400 exactly when [user_id] is
    missing or empty, [slider_value] is missing, or [tags] is empty; a slider
    value of 0 with a user and a tag is stored. *)
Theorem zero_slider_accepted env user_id slider_value tags note now db :
  (status (submit_checkin env (checkin user_id slider_value tags note) now db).2 = 400 ↔
     (user_id = None ∨ user_id = Some "") ∨
     slider_value = None ∨
     default [] tags = []) ∧
  (∀ u t ts,
     user_id = Some u → u ≠ "" →
     slider_value = Some (PyInt 0) →
     tags = Some (t :: ts) →
     firestore_fault env = None →
     submit_checkin env (checkin user_id slider_value tags note) now db =
       (add_checkin u {| CheckIn.slider_value := PyInt 0;
                         CheckIn.tags := t :: ts;
                         CheckIn.note := default "" note;
                         CheckIn.timestamp := now |} db,
        {| status := 200; body := MessageBody "Check-in saved successfully" |})).
Proof.
  split.
  - unfold submit_checkin, checkin, try_except, firestore. cbn.
    destruct (nonempty user_id) as [u |] eqn:Hu.
    + apply nonempty_Some in Hu as [-> Hne].
      destruct slider_value as [v |]; [| cbn; split; [by auto | done]].
      destruct (default [] tags) as [| t ts] eqn:Ht; [cbn; split; [by auto | done] |].
      destruct (firestore_fault env); cbn.
      * split; [discriminate |].
        intros [[[=] | [= ->]] | [[=] | [=]]]. by destruct Hne.
      * split; [discriminate |].
        intros [[[=] | [= ->]] | [[=] | [=]]]. by destruct Hne.
    + cbn. split; [intros _ | done]. left.
      destruct user_id as [u |]; [| by left]. right.
      unfold nonempty in Hu. destruct (String.eqb_spec u ""); [by subst | discriminate].
  - intros u t ts -> Hne -> -> Hup.
    assert (nonempty (Some u) = Some u) as Hu by (by apply nonempty_Some).
    unfold submit_checkin, checkin, try_except, firestore.
    cbn [CheckInData.user_id CheckInData.slider_value CheckInData.tags CheckInData.note].
    rewrite Hu. cbn. rewrite Hup. reflexivity.
Qed.

Lemma zero_slider_accepted_witness :
  submit_checkin (Example.env "joy" 0.5)
    (checkin (Some "u1") (Some (PyInt 0)) (Some ["calm"]) None) (Example.noon 1) empty_store =
    (add_checkin "u1" {| CheckIn.slider_value := PyInt 0;
                         CheckIn.tags := ["calm"];
                         CheckIn.note := "";
                         CheckIn.timestamp := Example.noon 1 |} empty_store,
     {| status := 200; body := MessageBody "Check-in saved successfully" |}).
Proof.
  refine (proj2 (zero_slider_accepted (Example.env "joy" 0.5) (Some "u1") (Some (PyInt 0))
                   (Some ["calm"]) None (Example.noon 1) empty_store)
            "u1" "calm" [] eq_refl _ eq_refl eq_refl eq_refl).
  discriminate.
Defined.

(** ** Grouping by date *)

Lemma assoc_group_append d x g k :
  assoc k (group_append d x g) =
    if String.eqb d k then Some (default [] (assoc d g) ++ [x]) else assoc k g.
Proof.
  induction g as [| [k' l] g IH]; cbn; [reflexivity |].
  destruct (String.eqb_spec k' d) as [-> | Hne]; cbn.
  - destruct (String.eqb_spec d k); reflexivity.
  - destruct (String.eqb_spec k' k) as [-> | Hk].
    + destruct (String.eqb_spec d k); [congruence | reflexivity].
    + exact IH.
Qed.

Lemma group_append_keys d x g k :
  k ∈ (group_append d x g).*1 ↔ k = d ∨ k ∈ g.*1.
Proof.
  induction g as [| [k' l] g IH]; cbn.
  - rewrite list_elem_of_singleton, elem_of_nil. tauto.
  - destruct (String.eqb_spec k' d) as [-> | Hne]; cbn; rewrite !elem_of_cons.
    + tauto.
    + rewrite IH. tauto.
Qed.

Lemma group_append_NoDup d x g : NoDup g.*1 → NoDup (group_append d x g).*1.
Proof.
  induction g as [| [k' l] g IH]; cbn; intros Hnd.
  - apply NoDup_singleton.
  - apply NoDup_cons in Hnd as [Hk' Hnd].
    destruct (String.eqb_spec k' d) as [-> | Hne]; cbn; apply NoDup_cons.
    + by split.
    + split; [| by apply IH]. rewrite group_append_keys. intros [-> | Hin]; by auto.
Qed.

Lemma assoc_None d g : assoc d g = None ↔ d ∉ g.*1.
Proof.
  induction g as [| [k l] g IH]; cbn.
  - split; [intros _; apply not_elem_of_nil | done].
  - rewrite not_elem_of_cons. destruct (String.eqb_spec k d) as [-> | Hne].
    + split; [discriminate | intros [Hd _]; by destruct Hd].
    + rewrite IH. split; [by auto | tauto].
Qed.

Lemma assoc_elem_of d l g : NoDup g.*1 → (d, l) ∈ g → assoc d g = Some l.
Proof.
  induction g as [| [k l'] g IH]; cbn; intros Hnd Hin.
  - by apply elem_of_nil in Hin.
  - apply NoDup_cons in Hnd as [Hk Hnd]. apply elem_of_cons in Hin as [[= <- <-] | Hin].
    + by rewrite String.eqb_refl.
    + destruct (String.eqb_spec k d) as [-> | Hne]; [| by apply IH].
      destruct Hk. by apply (list_elem_of_fmap_2 fst) in Hin.
Qed.

Lemma grouped_data_snoc docs doc :
  grouped_data (docs ++ [doc]) =
    match MoodEntry.timestamp doc with
    | None => grouped_data docs
    | Some ts => group_append (to_date ts) (item_of doc) (grouped_data docs)
    end.
Proof. unfold grouped_data. by rewrite fold_left_app. Qed.

Lemma grouped_data_NoDup docs : NoDup (grouped_data docs).*1.
Proof.
  induction docs as [| doc docs IH] using rev_ind; [apply NoDup_nil_2 |].
  rewrite grouped_data_snoc. destruct (MoodEntry.timestamp doc); [| exact IH].
  by apply group_append_NoDup.
Qed.

Lemma entries_on_snoc date docs doc :
  entries_on date (docs ++ [doc]) =
    entries_on date docs ++ (if decide (date_of doc = Some date) then [item_of doc] else []).
Proof.
  unfold entries_on. rewrite filter_app, fmap_app. f_equal.
  rewrite filter_cons, filter_nil. by case_decide.
Qed.

(** The group that [grouped_data] holds for a date consists of the documents
    of that date, in retrieval order; dates without documents have none. *)
Lemma assoc_grouped_data docs date :
  assoc date (grouped_data docs) =
    match entries_on date docs with
    | [] => None
    | es => Some es
    end.
Proof.
  induction docs as [| doc docs IH] using rev_ind; [reflexivity |].
  rewrite grouped_data_snoc, entries_on_snoc. unfold date_of.
  destruct (MoodEntry.timestamp doc) as [ts |]; cbn.
  - rewrite assoc_group_append.
    destruct (String.eqb_spec (to_date ts) date) as [-> | Hne].
    + rewrite decide_True by reflexivity. rewrite IH.
      destruct (entries_on _ docs); reflexivity.
    + rewrite decide_False by congruence. by rewrite app_nil_r.
  - rewrite decide_False by discriminate. by rewrite app_nil_r.
Qed.

(** What the second loop leaves under each date. *)
Lemma trends_loop_lookup g :
  NoDup g.*1 →
  ∀ acc m, trends_loop g acc = Ok m →
  ∀ date,
    match assoc date g with
    | Some entries => ∃ t, daily_trend entries = Ok t ∧ m !! date = Some t
    | None => m !! date = acc !! date
    end.
Proof.
  induction g as [| [k l] g IH]; intros Hnd acc m Hm date; cbn in *.
  - by injection Hm as <-.
  - apply NoDup_cons in Hnd as [Hk Hnd].
    destruct (daily_trend l) as [t | e] eqn:Ht; [| discriminate]. cbn in Hm.
    specialize (IH Hnd _ _ Hm date).
    destruct (String.eqb_spec k date) as [-> | Hne].
    + apply assoc_None in Hk. rewrite Hk in IH.
      exists t. split; [exact Ht |]. by rewrite IH, lookup_insert_eq.
    + destruct (assoc date g); [exact IH |]. by rewrite IH, lookup_insert_ne.
Qed.

Lemma trends_loop_ok g acc :
  (∀ date entries, (date, entries) ∈ g → is_ok (daily_trend entries) = true) →
  is_ok (trends_loop g acc) = true.
Proof.
  revert acc. induction g as [| [k l] g IH]; intros acc Hok; cbn; [reflexivity |].
  pose proof (Hok k l (list_elem_of_here _ _)) as Hl.
  destruct (daily_trend l); [| discriminate]. cbn.
  apply IH. intros date entries Hin. apply (Hok date entries). by apply list_elem_of_further.
Qed.

(** The [trends] object holds a date exactly when a document falls on it,
    and then holds the daily trend of that date's group. *)
Lemma aggregate_trends_lookup docs trends date :
  aggregate_trends docs = Ok trends →
  match entries_on date docs with
  | [] => trends !! date = None
  | es => ∃ t, daily_trend es = Ok t ∧ trends !! date = Some t
  end.
Proof.
  intros Hagg.
  pose proof (trends_loop_lookup _ (grouped_data_NoDup docs) _ _ Hagg date) as H.
  rewrite assoc_grouped_data in H.
  destruct (entries_on date docs); [| exact H]. by rewrite H, lookup_empty.
Qed.

Lemma aggregate_trends_ok docs :
  (∀ date, entries_on date docs ≠ [] → is_ok (daily_trend (entries_on date docs)) = true) →
  is_ok (aggregate_trends docs) = true.
Proof.
  intros Hok. apply trends_loop_ok. intros date entries Hin.
  apply (assoc_elem_of _ _ _ (grouped_data_NoDup docs)) in Hin.
  rewrite assoc_grouped_data in Hin. specialize (Hok date).
  destruct (entries_on date docs) as [| e es]; [discriminate |].
  injection Hin as <-. by apply Hok.
Qed.

(** ** Order of retrieval *)

Lemma Qplus_swap a b c : Qplus a (Qplus b c) = Qplus b (Qplus a c).
Proof.
  destruct a as [na da], b as [nb db], c as [nc dc]. unfold Qplus. cbn.
  f_equal.
  - rewrite !Pos2Z.inj_mul. ring.
  - rewrite !Pos.mul_assoc. f_equal. apply Pos.mul_comm.
Qed.

Lemma exact_sums_perm l l' : l ≡ₚ l' → Py.exact_sums l = Py.exact_sums l'.
Proof.
  induction 1 as [| x l l' _ IH | x y l | l l' l'' _ IH1 _ IH2]; cbn.
  - reflexivity.
  - by rewrite IH.
  - destruct (Py.exact_ratio x) as [vx |], (Py.exact_ratio y) as [vy |],
      (Py.exact_sums l) as [[sx sxx] |]; try reflexivity.
    by rewrite (Qplus_swap vy vx), (Qplus_swap (Qmult vy vy)).
  - by rewrite IH1.
Qed.

(** [statistics.stdev] does not depend on the order of its data. *)
Lemma stdev_perm l l' : l ≡ₚ l' → Py.stdev l = Py.stdev l'.
Proof.
  intros Hp. unfold Py.stdev, Py.sample_variance.
  by rewrite (exact_sums_perm _ _ Hp), (Permutation_length Hp).
Qed.

Lemma mood_swing_of_perm l l' : l ≡ₚ l' → mood_swing_of l = mood_swing_of l'.
Proof.
  intros Hp. unfold mood_swing_of.
  by rewrite (stdev_perm _ _ Hp), (Permutation_length Hp).
Qed.

Lemma Counter_step_comm (c : gmap string nat) a b :
  <[b := S (default 0%nat (<[a := S (default 0%nat (c !! a))]> c !! b))]>
    (<[a := S (default 0%nat (c !! a))]> c) =
  <[a := S (default 0%nat (<[b := S (default 0%nat (c !! b))]> c !! a))]>
    (<[b := S (default 0%nat (c !! b))]> c).
Proof.
  destruct (decide (a = b)) as [-> | Hne]; [reflexivity |].
  rewrite (lookup_insert_ne _ a b), (lookup_insert_ne _ b a) by done.
  by apply insert_insert_ne.
Qed.

Lemma Counter_perm l l' : l ≡ₚ l' → Counter l = Counter l'.
Proof.
  unfold Counter. generalize (∅ : gmap string nat).
  intros c Hp. revert c.
  induction Hp as [| x l l' _ IH | x y l | l l' l'' _ IH1 _ IH2]; intros c; cbn.
  - reflexivity.
  - apply IH.
  - by rewrite Counter_step_comm.
  - by rewrite IH1.
Qed.

Lemma average_risk_sum l l' :
  length l = length l' → Py.sum l = Py.sum l' → average_risk l = average_risk l'.
Proof.
  intros Hlen Hsum. unfold average_risk, Py.len_float.
  destruct l, l'; try discriminate; [reflexivity |]. by rewrite Hsum, Hlen.
Qed.

(** The trend of one date under a permutation of its group: the emotion
    counts and the mood-swing flag are the same; the whole trend is the same
    when the risk scores add up to the same float. *)
Lemma daily_trend_perm es es' t :
  es ≡ₚ es' →
  daily_trend es = Ok t →
  ∃ t',
    daily_trend es' = Ok t' ∧
    DailyTrend.emotion_distribution t' = DailyTrend.emotion_distribution t ∧
    DailyTrend.mood_swing t' = DailyTrend.mood_swing t ∧
    (Py.sum (Item.risk_score <$> es') = Py.sum (Item.risk_score <$> es) → t' = t).
Proof.
  intros Hp. unfold daily_trend.
  assert (map Item.risk_score es ≡ₚ map Item.risk_score es') as Hscores
    by (by apply Permutation_map).
  rewrite <- (mood_swing_of_perm _ _ Hscores).
  assert (Counter (emotions_of es') = Counter (emotions_of es)) as ->.
  { apply Counter_perm. unfold emotions_of. by rewrite Hp. }
  destruct (mood_swing_of (map Item.risk_score es)) as [swing | e]; [| discriminate].
  cbn. intros [= <-]. eexists. split; [reflexivity |]. cbn.
  repeat split. intros Hsum. f_equal.
  apply average_risk_sum; [| exact Hsum].
  symmetry. by apply Permutation_length.
Qed.

Lemma entries_on_perm date docs docs' :
  docs ≡ₚ docs' → entries_on date docs ≡ₚ entries_on date docs'.
Proof. intros Hp. unfold entries_on. by rewrite Hp. Qed.

(** C6 as stated fails: two retrieval orders of the same four entries of one
    day give the averages 0.78 and 0.79, since [sum] adds floats from left
    to right and the exact mean 0.785 is a rounding tie. *)
Lemma average_depends_on_order :
  let docs := [Example.entry 1 "joy" 0.92; Example.entry 1 "joy" 0.73;
               Example.entry 1 "joy" 0.7; Example.entry 1 "joy" 0.79] in
  let docs' := [Example.entry 1 "joy" 0.92; Example.entry 1 "joy" 0.7;
                Example.entry 1 "joy" 0.73; Example.entry 1 "joy" 0.79] in
  docs ≡ₚ docs' ∧
  (DailyTrend.average_risk_score <$> trend_on "2025-03-01" (aggregate_trends docs))
    = Some 0.78%float ∧
  (DailyTrend.average_risk_score <$> trend_on "2025-03-01" (aggregate_trends docs'))
    = Some 0.79%float ∧
  aggregate_trends docs ≠ aggregate_trends docs' ∧
  (get_mood_trends (Example.env "joy" 0.5) (trends_of_user "u1") (store_of_entries docs)).2
    ≠ (get_mood_trends (Example.env "joy" 0.5) (trends_of_user "u1") (store_of_entries docs')).2.
Proof.
  cbv zeta.
  split; [| split; [| split; [| split]]].
  - apply perm_skip, perm_swap.
  - vm_compute. reflexivity.
  - vm_compute. reflexivity.
  - intros Heq.
    apply (f_equal (λ r, average_is 0.78 (trend_on "2025-03-01" r))) in Heq.
    vm_compute in Heq. discriminate.
  - intros Heq.
    apply (f_equal (λ resp,
             match body resp with
             | TrendsBody _ trends _ => average_is 0.78 (trends !! "2025-03-01")
             | _ => false
             end)) in Heq.
    vm_compute in Heq. discriminate.
Qed.

(** C6, amended: when the retrieved entries are permuted and the aggregation
    succeeds, it succeeds on the permutation with the same dates and, for
    each date, the same emotion distribution and mood-swing flag; the daily
    trend is identical, average included, whenever that date's risk scores
    add up to the same float in both orders. *)
Theorem trends_under_permutation docs docs' trends :
  docs ≡ₚ docs' →
  aggregate_trends docs = Ok trends →
  ∃ trends',
    aggregate_trends docs' = Ok trends' ∧
    dom trends' = dom trends ∧
    ∀ date t,
      trends !! date = Some t →
      ∃ t',
        trends' !! date = Some t' ∧
        DailyTrend.emotion_distribution t' = DailyTrend.emotion_distribution t ∧
        DailyTrend.mood_swing t' = DailyTrend.mood_swing t ∧
        (Py.sum (Item.risk_score <$> entries_on date docs')
           = Py.sum (Item.risk_score <$> entries_on date docs) → t' = t).
Proof.
  intros Hp Hagg.
  assert (∀ date, entries_on date docs' ≠ [] →
            ∃ t t', daily_trend (entries_on date docs) = Ok t ∧ trends !! date = Some t ∧
                    daily_trend (entries_on date docs') = Ok t' ∧
                    DailyTrend.emotion_distribution t' = DailyTrend.emotion_distribution t ∧
                    DailyTrend.mood_swing t' = DailyTrend.mood_swing t ∧
                    (Py.sum (Item.risk_score <$> entries_on date docs')
                       = Py.sum (Item.risk_score <$> entries_on date docs) → t' = t)) as Hdate.
  { intros date Hne.
    pose proof (entries_on_perm date _ _ Hp) as Hpd.
    pose proof (aggregate_trends_lookup _ _ date Hagg) as Hl.
    destruct (entries_on date docs) as [| e es] eqn:Hes.
    - apply Permutation_nil in Hpd. by destruct Hne.
    - destruct Hl as (t & Ht & Hlook).
      destruct (daily_trend_perm _ _ _ Hpd Ht) as (t' & Ht' & Hrest).
      by exists t, t'. }
  destruct (aggregate_trends docs') as [trends' | e] eqn:Hagg'.
  2:{ assert (is_ok (aggregate_trends docs') = true) as Hok; [| by rewrite Hagg' in Hok].
      apply aggregate_trends_ok. intros date Hne.
      destruct (Hdate date Hne) as (t & t' & _ & _ & Ht' & _). by rewrite Ht'. }
  exists trends'. split; [reflexivity |].
  assert (∀ date t, trends !! date = Some t →
            entries_on date docs' ≠ [] ∧ entries_on date docs ≠ []) as Hsome.
  { intros date t Hlook.
    pose proof (aggregate_trends_lookup _ _ date Hagg) as Hl.
    pose proof (entries_on_perm date _ _ Hp) as Hpd.
    destruct (entries_on date docs) as [| e es]; [congruence |].
    split; [| done]. intros Hnil. rewrite Hnil in Hpd.
    symmetry in Hpd. by apply Permutation_nil in Hpd. }
  split.
  - apply set_eq. intros date. rewrite !elem_of_dom.
    pose proof (aggregate_trends_lookup _ _ date Hagg') as Hl'.
    split.
    + intros [t' Hlook'].
      destruct (entries_on date docs') as [| e es] eqn:Hes'; [congruence |].
      destruct (Hdate date) as (t & _ & _ & Hlook & _); [by rewrite Hes' | by eauto].
    + intros [t Hlook]. destruct (Hsome _ _ Hlook) as [Hne' _].
      destruct (entries_on date docs') as [| e es]; [done |].
      destruct Hl' as (t' & _ & Hlook'). by eauto.
  - intros date t Hlook. destruct (Hsome _ _ Hlook) as [Hne' _].
    destruct (Hdate date Hne') as (t0 & t' & _ & Hlook0 & Ht' & Hrest).
    assert (t0 = t) as -> by congruence.
    pose proof (aggregate_trends_lookup _ _ date Hagg') as Hl'.
    destruct (entries_on date docs') as [| e es]; [done |].
    destruct Hl' as (t'' & Ht'' & Hlook'').
    assert (t'' = t') as -> by congruence.
    by exists t'.
Qed.

Lemma trends_under_permutation_witness :
  let docs := [Example.entry 1 "joy" 0.9; Example.entry 2 "fear" 0.4; Example.entry 1 "sadness" 0.1] in
  let docs' := [Example.entry 2 "fear" 0.4; Example.entry 1 "sadness" 0.1; Example.entry 1 "joy" 0.9] in
  ∃ trends trends',
    aggregate_trends docs = Ok trends ∧
    aggregate_trends docs' = Ok trends' ∧
    dom trends' = dom trends.
Proof.
  cbv zeta.
  destruct (aggregate_trends [Example.entry 1 "joy" 0.9; Example.entry 2 "fear" 0.4;
                              Example.entry 1 "sadness" 0.1]) as [trends | e] eqn:Hagg.
  - destruct (trends_under_permutation
                [Example.entry 1 "joy" 0.9; Example.entry 2 "fear" 0.4;
                 Example.entry 1 "sadness" 0.1]
                [Example.entry 2 "fear" 0.4; Example.entry 1 "sadness" 0.1;
                 Example.entry 1 "joy" 0.9]
                trends) as (trends' & Hagg' & Hdom & _).
    + eapply perm_trans; [apply perm_swap | apply perm_skip, perm_swap].
    + exact Hagg.
    + exists trends, trends'. split; [reflexivity |]. split; [exact Hagg' | exact Hdom].
  - assert (is_ok (aggregate_trends
                     [Example.entry 1 "joy" 0.9; Example.entry 2 "fear" 0.4;
                      Example.entry 1 "sadness" 0.1]) = true) as Hok
      by (vm_compute; reflexivity).
    rewrite Hagg in Hok. discriminate.
Defined.

(** ** Daily statistics *)


Lemma daily_trend_single e :
  daily_trend [e] =
    Ok {| DailyTrend.average_risk_score := average_risk [Item.risk_score e];
          DailyTrend.emotion_distribution := Counter (emotions_of [e]);
          DailyTrend.mood_swing := false |}.
Proof. reflexivity. Qed.



Lemma round_half_even_bounds num den :
  0 < den → 0 ≤ num ≤ 100 * den → 0 ≤ Py.round_half_even num den ≤ 100.
Proof.
  intros Hden Hnum. unfold Py.round_half_even.
  pose proof (Z.div_mod num den ltac:(lia)) as Hdm.
  pose proof (Z.mod_pos_bound num den Hden) as Hr.
  assert (0 ≤ num / den) as Hq0 by (apply Z.div_pos; lia).
  assert (num / den ≤ 100) as Hq100 by (apply Z.div_le_upper_bound; lia).
  destruct (Z.compare_spec (2 * (num mod den)) den) as [Heq | Hlt | Hgt];
    [destruct (Z.even (num / den)) | |]; nia.
Qed.

Lemma nearest_scaled_unit m e :
  (if 0 <=? e then Z.pos m * 2 ^ e <=? 1 else Z.pos m <=? 2 ^ (- e)) = true →
  0 ≤ Py.nearest_scaled m e 2 ≤ 100.
Proof.
  unfold Py.nearest_scaled. change (10 ^ Z.of_N 2) with 100.
  destruct (Z.leb_spec 0 e) as [He | He]; intros Hle; apply Z.leb_le in Hle.
  - assert (0 < 2 ^ e) by (apply Z.pow_pos_nonneg; lia). nia.
  - assert (0 < 2 ^ (- e)) by (apply Z.pow_pos_nonneg; lia).
    apply round_half_even_bounds; lia.
Qed.

(** [round(x, 2)] of a confidence is one of the 101 floats [cent k]. *)
Lemma round_unit_interval x :
  in_unit_interval x = true → ∃ k, (k ≤ 100)%nat ∧ Py.round x 2 = cent k.
Proof.
  unfold in_unit_interval, Py.round.
  destruct (Prim2SF x) as [s | s | | s m e] eqn:Hx; try discriminate.
  - intros Hs. exists 0%nat. split; [lia |].
    rewrite <- (SF2Prim_Prim2SF x), Hx. by destruct s.
  - destruct s; [discriminate |]. intros Hunit.
    pose proof (nearest_scaled_unit m e Hunit) as Hn.
    destruct (Py.nearest_scaled m e 2) as [| n | n]; [| | lia].
    + exists 0%nat. split; [lia | reflexivity].
    + exists (Pos.to_nat n). split; [lia |].
      change (Z.to_pos (10 ^ Z.of_N 2)) with 100%positive.
      unfold cent. destruct (Pos.to_nat n) eqn:Hk; [lia |].
      by rewrite <- Hk, Pos2Nat.id.
Qed.

(** The average of a single stored score is that score. *)
Lemma cent_average k : (k ≤ 100)%nat → average_risk [cent k] = cent k.
Proof.
  intros Hk.
  do 101 (destruct k as [| k]; [vm_compute; reflexivity |]). lia.
Qed.

(** C7: when exactly one document falls on a date and its risk score is the
    two-decimal rounding of a confidence in the unit interval, as
    [analyze_mood] stores it, the date has a trend whose average risk score
    is that stored score. *)
Theorem single_entry_average docs date doc raw :
  filter (λ d, date_of d = Some date) docs = [doc] →
  MoodEntry.risk_score doc = Some (Py.round raw 2) →
  in_unit_interval raw = true →
  ∃ t, daily_trend (entries_on date docs) = Ok t ∧
       DailyTrend.average_risk_score t = Py.round raw 2 ∧
       ∀ trends, aggregate_trends docs = Ok trends → trends !! date = Some t.
Proof.
  intros Hdocs Hscore Hunit.
  assert (entries_on date docs = [item_of doc]) as Hes
    by (unfold entries_on; by rewrite Hdocs).
  rewrite Hes. eexists. split; [apply daily_trend_single |]. split.
  - cbn [DailyTrend.average_risk_score]. unfold item_of. cbn [Item.risk_score].
    rewrite Hscore. cbn [default].
    destruct (round_unit_interval raw Hunit) as (k & Hk & ->).
    by apply cent_average.
  - intros trends Hagg.
    pose proof (aggregate_trends_lookup _ _ date Hagg) as Hl.
    rewrite Hes in Hl. destruct Hl as (t' & Ht' & Hlook').
    rewrite daily_trend_single in Ht'. by injection Ht' as <-.
Qed.

Lemma single_entry_average_witness :
  ∃ t,
    daily_trend (entries_on "2025-03-01"
                   (mood_entries (analyze_mood (Example.env "sadness" 0.849)
                                    (text_entry "u1" "ok") (Example.noon 1) empty_store).1))
      = Ok t ∧
    DailyTrend.average_risk_score t = Py.round 0.849 2 ∧
    ∀ trends,
      aggregate_trends
        (mood_entries (analyze_mood (Example.env "sadness" 0.849)
                         (text_entry "u1" "ok") (Example.noon 1) empty_store).1) = Ok trends →
      trends !! "2025-03-01" = Some t.
Proof.
  refine (single_entry_average
            (mood_entries (analyze_mood (Example.env "sadness" 0.849)
                             (text_entry "u1" "ok") (Example.noon 1) empty_store).1)
            "2025-03-01"
            (entry_of (Example.env "sadness" 0.849) empty_store "u1" "ok" (Example.noon 1)
               {| Classification.label := "sadness"; Classification.score := 0.849 |}
               {| Classification.label := "sadness"; Classification.score := 0.849 |})
            0.849 _ _ _).
  - vm_compute. reflexivity.
  - reflexivity.
  - vm_compute. reflexivity.
Defined.

(** ** The variance that [stdev] takes the root of *)

Lemma exact_sums_values l vs :
  exact_values l = Some vs →
  Py.exact_sums l = Some (sum_Q vs, sum_Q (map (fun v => Qmult v v) vs)).
Proof.
  revert vs. induction l as [| x l IH]; intros vs; cbn.
  - by intros [= <-].
  - destruct (Py.exact_ratio x) as [v |]; [| discriminate].
    destruct (exact_values l) as [vs' |]; [| discriminate].
    intros [= <-]. by rewrite (IH vs' eq_refl).
Qed.

Lemma squared_deviations_expand c l :
  (squared_deviations c l ==
     sum_Q (map (fun v => v * v) l) - 2 * c * sum_Q l
     + inject_Z (Z.of_nat (length l)) * c * c)%Q.
Proof.
  unfold squared_deviations. induction l as [| v l IH].
  - cbn. ring.
  - cbn [map sum_Q fold_right length]. fold (sum_Q (map (fun v => ((v - c) * (v - c))%Q) l)).
    fold (sum_Q (map (fun v => (v * v)%Q) l)). fold (sum_Q l).
    rewrite IH, Nat2Z.inj_succ. unfold Z.succ. rewrite inject_Z_plus. ring.
Qed.

(** For at least two finite values, the fraction [mss] of [stdev] is the
    sample variance [sum (x - mean)^2 / (n - 1)] of their exact values. *)
Lemma sample_variance_textbook l vs :
  exact_values l = Some vs →
  (2 ≤ length l)%nat →
  ∃ mss, Py.sample_variance l = Some mss ∧ (mss == textbook_variance vs)%Q.
Proof.
  intros Hvs Hlen.
  assert (length vs = length l) as Hlenvs.
  { clear Hlen. revert vs Hvs. induction l as [| x l IH]; intros vs; cbn.
    - by intros [= <-].
    - destruct (Py.exact_ratio x); [| discriminate].
      destruct (exact_values l) as [vs' |]; [| discriminate].
      intros [= <-]. cbn. by rewrite (IH vs' eq_refl). }
  unfold Py.sample_variance. rewrite (exact_sums_values _ _ Hvs).
  eexists. split; [reflexivity |].
  rewrite Qred_correct. unfold textbook_variance, mean_Q.
  rewrite squared_deviations_expand, Hlenvs.
  assert (¬ (inject_Z (Z.of_nat (length l)) == 0)%Q) as Hn.
  { intros H. unfold Qeq in H. cbn in H. lia. }
  assert (¬ (inject_Z (Z.of_nat (length l)) - 1 == 0)%Q) as Hn1.
  { intros H. unfold Qeq in H. cbn in H. lia. }
  field. split; assumption.
Qed.

(** * Further properties of the handlers *)

(** ** [to_date] *)

Lemma digit_inj a b : digit a = digit b → a mod 10 = b mod 10.
Proof.
  unfold digit. intros H.
  pose proof (Z.mod_pos_bound a 10 ltac:(lia)) as Ha.
  pose proof (Z.mod_pos_bound b 10 ltac:(lia)) as Hb.
  apply (f_equal nat_of_ascii) in H.
  rewrite !nat_ascii_embedding in H by lia. lia.
Qed.

Lemma four_digits y y' :
  0 ≤ y ≤ 9999 → 0 ≤ y' ≤ 9999 →
  (y / 1000) mod 10 = (y' / 1000) mod 10 →
  (y / 100) mod 10 = (y' / 100) mod 10 →
  (y / 10) mod 10 = (y' / 10) mod 10 →
  y mod 10 = y' mod 10 → y = y'.
Proof. intros. Z.to_euclidean_division_equations. lia. Qed.

Lemma two_digits y y' :
  0 ≤ y ≤ 99 → 0 ≤ y' ≤ 99 →
  (y / 10) mod 10 = (y' / 10) mod 10 →
  y mod 10 = y' mod 10 → y = y'.
Proof. intros. Z.to_euclidean_division_equations. lia. Qed.

(** X1: two timestamps with a four-digit year (1000 to 9999) get the same
    [to_date] key exactly when they fall on the same day; the time of day
    plays no part. *)
Theorem to_date_same_day t t' :
  calendar_date t → calendar_date t' →
  to_date t = to_date t' ↔ year t = year t' ∧ month t = month t' ∧ day t = day t'.
Proof.
  intros (Hy & Hm & Hd) (Hy' & Hm' & Hd'). split.
  - unfold to_date, pad4, pad2. cbn [String.append]. intros H.
    injection H as Hy3 Hy2 Hy1 Hy0 Hm1 Hm0 Hd1 Hd0.
    apply digit_inj in Hy3, Hy2, Hy1, Hy0, Hm1, Hm0, Hd1, Hd0.
    split; [| split].
    + apply four_digits; (lia || assumption).
    + apply two_digits; (lia || assumption).
    + apply two_digits; (lia || assumption).
  - intros (Ey & Em & Ed). unfold to_date. by rewrite Ey, Em, Ed.
Qed.

Lemma to_date_same_day_witness : to_date (Example.noon 7) = to_date (evening 7).
Proof.
  refine (proj2 (to_date_same_day (Example.noon 7) (evening 7) _ _) _).
  - unfold calendar_date. cbn. lia.
  - unfold calendar_date. cbn. lia.
  - repeat split.
Defined.

(** ** Validation and failure *)

(** X2: [analyze_mood] answers 400 exactly when the body or one of the keys
    [text] and [user_id] is missing; the test is on the keys, so an empty
    text is analysed like any other. *)
Theorem analyze_mood_rejects_iff env data now db :
  (status (analyze_mood env data now db).2 = 400 ↔
     match data with
     | Some d => AnalyzeMoodData.text d = None ∨ AnalyzeMoodData.user_id d = None
     | None => True
     end) ∧
  (∀ user_id r rr,
     answers env "" r rr →
     status (analyze_mood env (text_entry user_id "") now db).2 = 200).
Proof.
  split.
  - unfold analyze_mood, try_except, firestore.
    destruct data as [[[user_text |] [user_id |]] |]; cbn; try (split; [by auto | done]).
    destruct (emotion_classifier env user_text); cbn;
      [| split; [discriminate | intros [[=] | [=]]]].
    destruct (risk_classifier env user_text); cbn;
      [| split; [discriminate | intros [[=] | [=]]]].
    destruct (firestore_fault env); cbn; (split; [discriminate | intros [[=] | [=]]]).
  - intros user_id r rr Hans. by rewrite (analyze_mood_answers _ _ _ _ _ _ _ Hans).
Qed.

(** X3: [set_emergency_code] answers 400 exactly when the body or one of the
    keys [user_id], [code_word] and [emergency_contact] is missing. *)
Theorem set_emergency_code_rejects_iff env data now db :
  status (set_emergency_code env data now db).2 = 400 ↔
    match data with
    | Some d =>
        SetEmergencyData.user_id d = None ∨
        SetEmergencyData.code_word d = None ∨
        SetEmergencyData.emergency_contact d = None
    | None => True
    end.
Proof.
  unfold set_emergency_code, try_except, firestore.
  destruct data as [[[user_id |] [code_word |] [emergency_contact |]] |]; cbn;
    try (split; [by auto | done]).
  destruct (firestore_fault env); cbn;
    (split; [discriminate | intros [[=] | [[=] | [=]]]]).
Qed.

(** X4: [get_mood_trends] never changes the store; with a JSON body it
    answers 400 exactly when [user_id] is missing or empty, and without a
    body it answers 500 with the message of the [AttributeError] that
    [data.get] raises. *)
Theorem get_mood_trends_rejects_iff env data db :
  (get_mood_trends env data db).1 = db ∧
  match data with
  | Some d =>
      status (get_mood_trends env data db).2 = 400 ↔
        MoodTrendsData.user_id d = None ∨ MoodTrendsData.user_id d = Some ""
  | None =>
      (get_mood_trends env data db).2 =
        {| status := 500; body := ErrorBody "'NoneType' object has no attribute 'get'" |}
  end.
Proof.
  split; [apply get_mood_trends_store |].
  destruct data as [[user_id] |]; [| reflexivity].
  unfold get_mood_trends, try_except, firestore. cbn.
  destruct (nonempty user_id) as [u |] eqn:Hu.
  - apply nonempty_Some in Hu as [-> Hne].
    destruct (firestore_fault env); cbn.
    + split; [discriminate | intros [[=] | [= ->]]; by destruct Hne].
    + destruct (aggregate_trends _); cbn;
        (split; [discriminate | intros [[=] | [= ->]]; by destruct Hne]).
  - cbn. split; [intros _ | done].
    destruct user_id as [u |]; [| by left]. right.
    unfold nonempty in Hu. destruct (String.eqb_spec u ""); [by subst | discriminate].
Qed.

(** Every request ends in one of two ways: an error answer with status 400
    or 500 and the store as it was, or an answer with status 200 whose body
    is not an error. *)
Lemma handle_outcome env r now db :
  ((handle env r now db).1 = db ∧
   ∃ error, (handle env r now db).2 = jsonify_error error 400 ∨
            (handle env r now db).2 = jsonify_error error 500) ∨
  (status (handle env r now db).2 = 200 ∧ is_error (handle env r now db).2 = false).
Proof.
  assert (∀ b : result (Store * Response),
            (∀ r0, b = Ok r0 → status r0.2 = 200 ∧ is_error r0.2 = false) →
            ((try_except db b).1 = db ∧
             ∃ error, (try_except db b).2 = jsonify_error error 400 ∨
                      (try_except db b).2 = jsonify_error error 500) ∨
            (status (try_except db b).2 = 200 ∧ is_error (try_except db b).2 = false)) as Htry.
  { intros [r0 | e] Hb; cbn.
    - right. by apply Hb.
    - left. split; [reflexivity |]. exists (str_exn e). by right. }
  assert (∀ error,
            ((db, jsonify_error error 400).1 = db ∧
             ∃ error', (db, jsonify_error error 400).2 = jsonify_error error' 400 ∨
                       (db, jsonify_error error 400).2 = jsonify_error error' 500) ∨
            (status (db, jsonify_error error 400).2 = 200 ∧
             is_error (db, jsonify_error error 400).2 = false)) as H400.
  { intros error. left. split; [reflexivity |]. exists error. by left. }
  destruct r as [data | data | data | data]; cbn [handle].
  - unfold analyze_mood.
    destruct data as [[[user_text |] [user_id |]] |]; try apply H400.
    apply Htry. unfold firestore. intros r0.
    destruct (emotion_classifier env user_text); [| discriminate]. cbn.
    destruct (risk_classifier env user_text); [| discriminate]. cbn.
    destruct (firestore_fault env); [discriminate |]. cbn. by intros [= <-].
  - unfold set_emergency_code.
    destruct data as [[[user_id |] [code_word |] [emergency_contact |]] |]; try apply H400.
    apply Htry. unfold firestore. intros r0.
    destruct (firestore_fault env); [discriminate |]. cbn. by intros [= <-].
  - unfold get_mood_trends.
    destruct data as [[user_id] |]; [| apply Htry; discriminate]. cbn.
    destruct (nonempty user_id) as [uid |]; [| apply H400].
    apply Htry. unfold firestore. intros r0.
    destruct (firestore_fault env); [discriminate |]. cbn.
    destruct (aggregate_trends _); [| discriminate]. cbn. by intros [= <-].
  - unfold submit_checkin.
    destruct data as [[user_id slider tags note] |]; [| apply Htry; discriminate]. cbn.
    destruct (nonempty user_id) as [uid |], slider as [v |], (default [] tags) as [| t ts];
      try apply H400.
    apply Htry. unfold firestore. intros r0.
    destruct (firestore_fault env); [discriminate |]. cbn. by intros [= <-].
Qed.

(** X5: a request that is not answered with status 200 writes nothing: the
    store after it is the store before it, whatever failed (a missing field,
    a pipeline, Firestore, the aggregation). *)
Theorem failed_request_writes_nothing env r now db :
  status (handle env r now db).2 ≠ 200 → (handle env r now db).1 = db.
Proof.
  intros Hstatus.
  destruct (handle_outcome env r now db) as [[Hdb _] | [H200 _]]; [exact Hdb | done].
Qed.

Lemma failed_request_writes_nothing_witness :
  (handle Example.env_firestore_down (AnalyzeMood (text_entry "u1" "I feel hopeless"))
     (Example.noon 1) empty_store).1 = empty_store.
Proof.
  refine (failed_request_writes_nothing Example.env_firestore_down
            (AnalyzeMood (text_entry "u1" "I feel hopeless")) (Example.noon 1) empty_store _).
  vm_compute. discriminate.
Defined.

(** X6: every answer has status 200, 400 or 500, and its body is an error
    body [{"error": ...}] exactly when the status is not 200. *)
Theorem error_body_iff_not_200 env r now db :
  (status (handle env r now db).2 = 200 ∨
   status (handle env r now db).2 = 400 ∨
   status (handle env r now db).2 = 500) ∧
  (is_error (handle env r now db).2 = true ↔ status (handle env r now db).2 ≠ 200).
Proof.
  destruct (handle_outcome env r now db) as [[_ [error [H | H]]] | [H200 Herr]].
  - rewrite H. cbn. split; [by auto | done].
  - rewrite H. cbn. split; [by auto | done].
  - rewrite H200, Herr. split; [by auto |]. split; [discriminate | done].
Qed.

(** ** What the store keeps *)

Lemma extends_refl db : extends db db.
Proof. split; [reflexivity | split; [intros u; reflexivity | reflexivity]]. Qed.

Lemma extends_trans db1 db2 db3 : extends db1 db2 → extends db2 db3 → extends db1 db3.
Proof.
  intros (Hm & Hc & Hs) (Hm' & Hc' & Hs'). split; [| split].
  - by etrans.
  - intros u. etrans; [apply Hc | apply Hc'].
  - by etrans.
Qed.

Lemma handle_extends env r now db : extends db (handle env r now db).1.
Proof.
  destruct r as [data | data | data | data]; cbn [handle].
  - unfold analyze_mood, try_except, firestore.
    destruct data as [[[user_text |] [user_id |]] |]; try apply extends_refl.
    destruct (emotion_classifier env user_text); [| apply extends_refl]. cbn.
    destruct (risk_classifier env user_text); [| apply extends_refl]. cbn.
    destruct (firestore_fault env); [apply extends_refl |]. cbn.
    split; [by apply prefix_app_r | split; [intros u; reflexivity | reflexivity]].
  - unfold set_emergency_code, try_except, firestore.
    destruct data as [[[user_id |] [code_word |] [emergency_contact |]] |];
      try apply extends_refl.
    destruct (firestore_fault env); [apply extends_refl |]. cbn.
    split; [reflexivity | split; [intros u; reflexivity |]].
    cbn. rewrite dom_insert. set_solver.
  - rewrite get_mood_trends_store. apply extends_refl.
  - unfold submit_checkin, try_except, firestore.
    destruct data as [[user_id slider tags note] |]; [| apply extends_refl]. cbn.
    destruct (nonempty user_id) as [uid |], slider as [v |], (default [] tags) as [| t ts];
      try apply extends_refl.
    destruct (firestore_fault env); [apply extends_refl |]. cbn.
    split; [reflexivity | split; [| reflexivity]].
    intros u. cbn. destruct (decide (uid = u)) as [<- | Hne].
    + rewrite lookup_insert_eq. cbn. by apply prefix_app_r.
    + by rewrite lookup_insert_ne.
Qed.

(** X7: the store is append-only: whatever requests are served, in whatever
    environments, the mood entries and each user's check-ins that were there
    stay, unchanged and in their order, at the front of the collections, and
    no user's emergency settings are removed. *)
Theorem store_is_append_only requests db : extends db (serve_all requests db).
Proof.
  unfold serve_all. revert db.
  induction requests as [| [[env r] now] requests IH]; intros db; cbn.
  - apply extends_refl.
  - eapply extends_trans; [apply handle_extends | apply IH].
Qed.

(** ** One analysis *)

(** X8: a successful [analyze_mood] appends exactly one mood entry and
    touches nothing else; the entry carries the user, the text as it was
    sent (not lowercased) and the time of the request, and its emotion,
    confidence, crisis flag, risk score, risk label and emergency trigger
    are the ones of the answer; the emotion label is the pipeline's, the
    risk label is lowercased. *)
Theorem analyze_mood_stores_what_it_returns env user_id user_text now db r rr :
  answers env user_text r rr →
  let out := analyze_mood env (text_entry user_id user_text) now db in
  ∃ e a,
    mood_entries out.1 = mood_entries db ++ [e] ∧
    user_emergency_settings out.1 = user_emergency_settings db ∧
    user_checkins out.1 = user_checkins db ∧
    out.2 = {| status := 200; body := MoodBody a |} ∧
    MoodEntry.user_id e = user_id ∧
    MoodEntry.text e = user_text ∧
    MoodEntry.timestamp e = Some now ∧
    MoodEntry.emotion e = Some (MoodAnalysis.emotion a) ∧
    MoodEntry.confidence e = MoodAnalysis.confidence a ∧
    MoodEntry.crisis e = MoodAnalysis.crisis a ∧
    MoodEntry.risk_score e = Some (MoodAnalysis.risk_score a) ∧
    MoodEntry.risk_label e = MoodAnalysis.risk_label a ∧
    MoodEntry.trigger_emergency e = MoodAnalysis.trigger_emergency a ∧
    MoodAnalysis.emotion a = Classification.label r ∧
    MoodAnalysis.risk_label a = lower env (Classification.label rr).
Proof.
  intros Hans. rewrite (analyze_mood_answers _ _ _ _ _ _ _ Hans). cbn.
  eexists _, _. repeat split.
Qed.

Lemma analyze_mood_stores_what_it_returns_witness :
  ∃ e,
    mood_entries (analyze_mood (Example.env "Joy" 0.5) (text_entry "u1" "Fine, THANKS")
                    (Example.noon 1) empty_store).1 = [e] ∧
    MoodEntry.text e = "Fine, THANKS" ∧
    MoodEntry.emotion e = Some "Joy" ∧
    MoodEntry.risk_label e = "joy".
Proof.
  destruct (analyze_mood_stores_what_it_returns (Example.env "Joy" 0.5) "u1" "Fine, THANKS"
              (Example.noon 1) empty_store
              {| Classification.label := "Joy"; Classification.score := 0.5 |}
              {| Classification.label := "Joy"; Classification.score := 0.5 |})
    as (e & a & He & _ & _ & Ha & _ & Htext & _ & Hemo & _ & _ & _ & Hlabel & _ & Hea & Hra).
  - repeat split.
  - exists e. split; [exact He |]. split; [exact Htext |].
    split; [by rewrite Hemo, Hea | by rewrite Hlabel, Hra].
Defined.

Lemma contains_empty_haystack needle :
  needle ≠ "" → Py.contains needle "" = false.
Proof. destruct needle; [done | reflexivity]. Qed.

(** X9: for the empty text the keyword check finds nothing, so the crisis
    decision is the model check alone, and the emergency trigger is false
    whatever code word the user configured. *)
Theorem empty_text_decision env user_id now db r rr :
  lower env "" = "" →
  answers env "" r rr →
  let resp := (analyze_mood env (text_entry user_id "") now db).2 in
  crisis_of resp =
    Some (ai_crisis (lower env (Classification.label rr)) (Classification.score rr)) ∧
  trigger_emergency_of_response resp = Some false.
Proof.
  intros Hlow Hans. rewrite (analyze_mood_answers _ _ _ _ _ _ _ Hans).
  unfold crisis_of, trigger_emergency_of_response, analysis_of, jsonify, analysis_body, entry_of.
  cbn [snd body fmap option_fmap option_map MoodAnalysis.crisis MoodEntry.crisis
       MoodAnalysis.trigger_emergency MoodEntry.trigger_emergency].
  split.
  - unfold keyword_crisis. rewrite Hlow. reflexivity.
  - unfold trigger_emergency_of. rewrite Hlow.
    destruct (user_emergency_settings db !! user_id) as [settings |]; [| reflexivity].
    destruct (nonempty (EmergencySettings.code_word settings)) as [w |] eqn:Hw; [| reflexivity].
    apply nonempty_Some in Hw as [_ Hne]. by rewrite contains_empty_haystack.
Qed.

Lemma empty_text_decision_witness :
  trigger_emergency_of_response
    (analyze_mood (Example.env "sadness" 0.9) (text_entry "u1" "") (Example.noon 2)
       (handle (Example.env "joy" 0.5) (emergency_setup "u1" "Pineapple" "112")
          (Example.noon 1) empty_store).1).2 = Some false.
Proof.
  refine (proj2 (empty_text_decision (Example.env "sadness" 0.9) "u1" (Example.noon 2)
                   (handle (Example.env "joy" 0.5) (emergency_setup "u1" "Pineapple" "112")
                      (Example.noon 1) empty_store).1
                   {| Classification.label := "sadness"; Classification.score := 0.9 |}
                   {| Classification.label := "sadness"; Classification.score := 0.9 |}
                   eq_refl _)).
  repeat split.
Defined.

(** X10: the two verdicts are independent signals.  The crisis flag is
    fixed by the text and the risk pipeline's answer: the user, the time, the
    store and the emotion pipeline play no part.  The emergency trigger is
    fixed by the text and the user's stored settings: no pipeline plays a
    part. *)
Theorem crisis_and_trigger_sources env env' user_id user_id' user_text now now' db db'
    r r' rr rr' :
  lower env = lower env' →
  answers env user_text r rr →
  answers env' user_text r' rr' →
  let resp := (analyze_mood env (text_entry user_id user_text) now db).2 in
  let resp' := (analyze_mood env' (text_entry user_id' user_text) now' db').2 in
  (rr = rr' → crisis_of resp = crisis_of resp') ∧
  (user_emergency_settings db !! user_id = user_emergency_settings db' !! user_id' →
   trigger_emergency_of_response resp = trigger_emergency_of_response resp').
Proof.
  intros Hlow Hans Hans'.
  rewrite (analyze_mood_answers _ _ _ _ _ _ _ Hans), (analyze_mood_answers _ _ _ _ _ _ _ Hans').
  unfold crisis_of, trigger_emergency_of_response, analysis_of, jsonify, analysis_body, entry_of.
  cbn [snd body fmap option_fmap option_map MoodAnalysis.crisis MoodEntry.crisis
       MoodAnalysis.trigger_emergency MoodEntry.trigger_emergency].
  unfold keyword_crisis, trigger_emergency_of. rewrite Hlow. split.
  - by intros <-.
  - by intros ->.
Qed.

Lemma crisis_and_trigger_sources_witness :
  crisis_of (analyze_mood (Example.env "fear" 0.9) (text_entry "u1" "so so") (Example.noon 1)
               empty_store).2 =
  crisis_of (analyze_mood
               {| lower := Py.ascii_lower;
                  emotion_classifier := fun _ => Example.answer "joy" 0.3;
                  risk_classifier := fun _ => Example.answer "fear" 0.9;
                  firestore_fault := None |}
               (text_entry "u2" "so so") (evening 4)
               (handle (Example.env "joy" 0.5) (emergency_setup "u2" "so" "112")
                  (Example.noon 1) empty_store).1).2.
Proof.
  refine (proj1 (crisis_and_trigger_sources (Example.env "fear" 0.9)
                   {| lower := Py.ascii_lower;
                      emotion_classifier := fun _ => Example.answer "joy" 0.3;
                      risk_classifier := fun _ => Example.answer "fear" 0.9;
                      firestore_fault := None |}
                   "u1" "u2" "so so" (Example.noon 1) (evening 4) empty_store
                   (handle (Example.env "joy" 0.5) (emergency_setup "u2" "so" "112")
                      (Example.noon 1) empty_store).1
                   {| Classification.label := "fear"; Classification.score := 0.9 |}
                   {| Classification.label := "joy"; Classification.score := 0.3 |}
                   {| Classification.label := "fear"; Classification.score := 0.9 |}
                   {| Classification.label := "fear"; Classification.score := 0.9 |}
                   eq_refl _ _) eq_refl).
  - repeat split.
  - repeat split.
Defined.

(** ** Emergency settings *)

Lemma set_emergency_code_served env user_id code_word emergency_contact now db :
  firestore_fault env = None →
  handle env (emergency_setup user_id code_word emergency_contact) now db =
    ({| user_emergency_settings :=
          <[user_id := {| EmergencySettings.code_word := Some (lower env code_word);
                          EmergencySettings.emergency_contact := emergency_contact;
                          EmergencySettings.updated_at := now |}]>
            (user_emergency_settings db);
        mood_entries := mood_entries db;
        user_checkins := user_checkins db |},
     jsonify (MessageBody "Emergency code and contact saved successfully.")).
Proof.
  intros Hup. unfold handle, emergency_setup, set_emergency_code, try_except, firestore.
  by rewrite Hup.
Qed.

(** X11: a successful [set_emergency_code] replaces the user's settings by
    the lowercased code word, the contact and the time of the request,
    whatever was stored before (last write wins), and leaves every other
    user's settings, the mood entries and the check-ins as they were. *)
Theorem set_emergency_code_last_write_wins env user_id code_word emergency_contact now db :
  firestore_fault env = None →
  let out := handle env (emergency_setup user_id code_word emergency_contact) now db in
  status out.2 = 200 ∧
  user_emergency_settings out.1 !! user_id =
    Some {| EmergencySettings.code_word := Some (lower env code_word);
            EmergencySettings.emergency_contact := emergency_contact;
            EmergencySettings.updated_at := now |} ∧
  (∀ other, other ≠ user_id →
     user_emergency_settings out.1 !! other = user_emergency_settings db !! other) ∧
  mood_entries out.1 = mood_entries db ∧
  user_checkins out.1 = user_checkins db.
Proof.
  intros Hup. rewrite (set_emergency_code_served _ _ _ _ _ _ Hup). cbn.
  split; [reflexivity |]. split; [by rewrite lookup_insert_eq |].
  split; [| done]. intros other Hne. by rewrite lookup_insert_ne.
Qed.

Lemma set_emergency_code_last_write_wins_witness :
  EmergencySettings.code_word <$>
    user_emergency_settings
      (handle (Example.env "joy" 0.5) (emergency_setup "u1" "Mango" "999") (evening 2)
         (handle (Example.env "joy" 0.5) (emergency_setup "u1" "Pineapple" "112")
            (Example.noon 1) empty_store).1).1 !! "u1" = Some (Some "mango").
Proof.
  rewrite (proj1 (proj2 (set_emergency_code_last_write_wins (Example.env "joy" 0.5)
                           "u1" "Mango" "999" (evening 2)
                           (handle (Example.env "joy" 0.5)
                              (emergency_setup "u1" "Pineapple" "112")
                              (Example.noon 1) empty_store).1 eq_refl))).
  reflexivity.
Defined.

(** X12: configuration and analysis compose: once [set_emergency_code] has
    stored the code word [w] for a user, an analysis of that user's text
    raises the emergency trigger exactly when the lowercased [w] is not
    empty and occurs in the lowercased text, so an empty code word switches
    the trigger off; another user's trigger is what it was before. *)
Theorem set_then_analyze env env' user_id code_word emergency_contact now now' db
    user_text r rr :
  firestore_fault env = None →
  answers env' user_text r rr →
  let db' := (handle env (emergency_setup user_id code_word emergency_contact) now db).1 in
  trigger_emergency_of_response (analyze_mood env' (text_entry user_id user_text) now' db').2 =
    Some (negb (String.eqb (lower env code_word) "") &&
          Py.contains (lower env code_word) (lower env' user_text)) ∧
  (∀ other, other ≠ user_id →
     trigger_emergency_of_response (analyze_mood env' (text_entry other user_text) now' db').2 =
     trigger_emergency_of_response (analyze_mood env' (text_entry other user_text) now' db).2).
Proof.
  intros Hup Hans.
  rewrite (set_emergency_code_served _ _ _ _ _ _ Hup). cbn [fst].
  set (db' := {| user_emergency_settings := _; mood_entries := _; user_checkins := _ |}).
  assert (user_emergency_settings db' !! user_id =
            Some {| EmergencySettings.code_word := Some (lower env code_word);
                    EmergencySettings.emergency_contact := emergency_contact;
                    EmergencySettings.updated_at := now |}) as Hlook
    by (subst db'; cbn; by rewrite lookup_insert_eq).
  assert (∀ other, other ≠ user_id →
            user_emergency_settings db' !! other = user_emergency_settings db !! other)
    as Hother by (intros other Hne; subst db'; cbn; by rewrite lookup_insert_ne).
  clearbody db'. split.
  - rewrite (analyze_mood_answers _ _ _ _ _ _ _ Hans).
    unfold trigger_emergency_of_response, analysis_of, jsonify, analysis_body, entry_of.
    cbn [snd body fmap option_fmap option_map
         MoodAnalysis.trigger_emergency MoodEntry.trigger_emergency].
    rewrite Hlook. unfold trigger_emergency_of, nonempty. cbn.
    by destruct (String.eqb (lower env code_word) "").
  - intros other Hne. rewrite !(analyze_mood_answers _ _ _ _ _ _ _ Hans).
    unfold trigger_emergency_of_response, analysis_of, jsonify, analysis_body, entry_of.
    cbn [snd body fmap option_fmap option_map
         MoodAnalysis.trigger_emergency MoodEntry.trigger_emergency].
    by rewrite (Hother other Hne).
Qed.

Lemma set_then_analyze_witness :
  trigger_emergency_of_response
    (analyze_mood (Example.env "joy" 0.5) (text_entry "u1" "anything at all") (Example.noon 2)
       (handle (Example.env "joy" 0.5) (emergency_setup "u1" "" "112")
          (Example.noon 1) empty_store).1).2 = Some false.
Proof.
  rewrite (proj1 (set_then_analyze (Example.env "joy" 0.5) (Example.env "joy" 0.5)
                    "u1" "" "112" (Example.noon 1) (Example.noon 2) empty_store
                    "anything at all"
                    {| Classification.label := "joy"; Classification.score := 0.5 |}
                    {| Classification.label := "joy"; Classification.score := 0.5 |}
                    eq_refl (conj eq_refl (conj eq_refl eq_refl)))).
  reflexivity.
Defined.

(** ** Trends *)

Lemma grouped_data_timestamped docs :
  grouped_data docs = grouped_data (filter (λ doc, is_Some (MoodEntry.timestamp doc)) docs).
Proof.
  unfold grouped_data. generalize (@nil (string * list Item.t)).
  induction docs as [| doc docs IH]; intros g; [reflexivity |].
  rewrite filter_cons. cbn [fold_left].
  destruct (MoodEntry.timestamp doc) as [ts |] eqn:Hts.
  - rewrite decide_True by eauto. cbn [fold_left]. rewrite Hts. apply IH.
  - rewrite decide_False by (intros [? [=]]). apply IH.
Qed.

Lemma entries_on_nonempty date docs :
  entries_on date docs ≠ [] ↔ ∃ doc, doc ∈ docs ∧ date_of doc = Some date.
Proof.
  unfold entries_on. split.
  - intros Hne.
    destruct (filter (λ doc, date_of doc = Some date) docs) as [| doc l] eqn:Hf; [done |].
    assert (doc ∈ filter (λ doc, date_of doc = Some date) docs) as Hin
      by (rewrite Hf; apply list_elem_of_here).
    apply list_elem_of_filter in Hin as [Hdate Hin]. by exists doc.
  - intros (doc & Hin & Hdate) Hnil. apply fmap_nil_inv in Hnil.
    assert (doc ∈ filter (λ doc, date_of doc = Some date) docs) as Hf
      by (by apply list_elem_of_filter).
    rewrite Hnil in Hf. by apply elem_of_nil in Hf.
Qed.

(** X13: the [trends] object has a key exactly for the dates on which a
    retrieved document falls; documents without a timestamp are skipped and
    change nothing in the outcome. *)
Theorem trends_dates docs :
  aggregate_trends docs =
    aggregate_trends (filter (λ doc, is_Some (MoodEntry.timestamp doc)) docs) ∧
  ∀ trends date,
    aggregate_trends docs = Ok trends →
    is_Some (trends !! date) ↔ ∃ doc, doc ∈ docs ∧ date_of doc = Some date.
Proof.
  split.
  - unfold aggregate_trends. by rewrite <- grouped_data_timestamped.
  - intros trends date Hagg. rewrite <- entries_on_nonempty.
    pose proof (aggregate_trends_lookup _ _ date Hagg) as Hl.
    destruct (entries_on date docs) as [| e es].
    + rewrite Hl. split; [intros [? [=]] | done].
    + destruct Hl as (t & _ & ->). split; [done | eauto].
Qed.

Lemma trends_dates_witness :
  ∃ trends,
    aggregate_trends [Example.entry 1 "joy" 0.9; Example.entry 2 "fear" 0.4] = Ok trends ∧
    is_Some (trends !! "2025-03-02").
Proof.
  destruct (aggregate_trends [Example.entry 1 "joy" 0.9; Example.entry 2 "fear" 0.4])
    as [trends | err] eqn:Hagg.
  - exists trends. split; [reflexivity |].
    apply (proj2 (proj2 (trends_dates
                           [Example.entry 1 "joy" 0.9; Example.entry 2 "fear" 0.4])
                   trends "2025-03-02" Hagg)).
    exists (Example.entry 2 "fear" 0.4). split; [| reflexivity].
    rewrite !elem_of_cons. tauto.
  - exfalso.
    assert (is_ok (aggregate_trends
                     [Example.entry 1 "joy" 0.9; Example.entry 2 "fear" 0.4]) = true) as Hok
      by (vm_compute; reflexivity).
    rewrite Hagg in Hok. discriminate.
Defined.

Lemma Counter_lookup_from (c : gmap string nat) l e :
  fold_left (fun c e => <[e := S (default 0%nat (c !! e))]> c) l c !! e =
    match length (filter (λ x, x = e) l) with
    | O => c !! e
    | n => Some (default 0%nat (c !! e) + n)%nat
    end.
Proof.
  revert c. induction l as [| x l IH]; intros c; [reflexivity |].
  cbn [fold_left]. rewrite IH, filter_cons.
  destruct (decide (x = e)) as [-> | Hne].
  - rewrite lookup_insert_eq. cbn [length default].
    destruct (length (filter (λ x, x = e) l)); cbn [default]; f_equal;
      generalize (default 0%nat (c !! e)); intros d; unfold id; lia.
  - by rewrite lookup_insert_ne.
Qed.

Lemma Counter_lookup l e :
  Counter l !! e =
    match length (filter (λ x, x = e) l) with
    | O => None
    | n => Some n
    end.
Proof. unfold Counter. rewrite Counter_lookup_from, lookup_empty. reflexivity. Qed.

Lemma emotions_of_count e es :
  e ≠ "" →
  length (filter (λ x, x = e) (emotions_of es)) = emotion_count e es.
Proof.
  intros Hne. unfold emotions_of, emotion_count.
  induction es as [| entry es IH]; [reflexivity |].
  cbn [omap list_omap]. rewrite (filter_cons (λ entry, Item.emotion entry = Some e)).
  destruct (nonempty (Item.emotion entry)) as [w |] eqn:Hw.
  - apply nonempty_Some in Hw as [Hw Hwne]. rewrite filter_cons.
    destruct (decide (w = e)) as [-> | Hwe].
    + rewrite decide_True by done. cbn. by rewrite <- IH.
    + rewrite decide_False by congruence. exact IH.
  - rewrite decide_False; [exact IH |].
    intros Hemo. assert (nonempty (Item.emotion entry) = Some e) as Hn
      by (by apply nonempty_Some).
    congruence.
Qed.

Lemma emotions_of_no_empty es : length (filter (λ x, x = "") (emotions_of es)) = 0%nat.
Proof.
  unfold emotions_of. induction es as [| entry es IH]; [reflexivity |].
  cbn [omap list_omap].
  destruct (nonempty (Item.emotion entry)) as [w |] eqn:Hw; [| exact IH].
  apply nonempty_Some in Hw as [_ Hwne]. rewrite filter_cons.
  by rewrite decide_False.
Qed.

Lemma daily_trend_emotions es t :
  daily_trend es = Ok t → DailyTrend.emotion_distribution t = Counter (emotions_of es).
Proof.
  unfold daily_trend. destruct (mood_swing_of _); [| discriminate].
  intros H. injection H as <-. reflexivity.
Qed.

(** X14: the emotion distribution of a date counts, for every non-empty
    emotion label, the documents of that date that carry it; labels that do
    not occur have no key, and documents whose emotion is missing or empty
    are not counted under any key. *)
Theorem emotion_distribution_counts docs trends date t e :
  aggregate_trends docs = Ok trends →
  trends !! date = Some t →
  DailyTrend.emotion_distribution t !! e =
    if decide (e = "") then None
    else match emotion_count e (entries_on date docs) with
         | O => None
         | n => Some n
         end.
Proof.
  intros Hagg Hlook.
  pose proof (aggregate_trends_lookup _ _ date Hagg) as Hl.
  destruct (entries_on date docs) as [| x es] eqn:Hes; [congruence |].
  destruct Hl as (t' & Ht' & Hlook'). assert (t' = t) as -> by congruence.
  rewrite (daily_trend_emotions _ _ Ht'), Counter_lookup.
  case_decide as He.
  - subst e. by rewrite emotions_of_no_empty.
  - by rewrite emotions_of_count.
Qed.

Lemma emotion_distribution_counts_witness :
  ∃ t,
    trend_on "2025-03-01"
      (aggregate_trends [Example.entry 1 "joy" 0.9; Example.entry 1 "" 0.2;
                         Example.entry 2 "joy" 0.4; Example.entry 1 "joy" 0.1]) = Some t ∧
    DailyTrend.emotion_distribution t !! "joy" = Some 2%nat.
Proof.
  destruct (aggregate_trends [Example.entry 1 "joy" 0.9; Example.entry 1 "" 0.2;
                              Example.entry 2 "joy" 0.4; Example.entry 1 "joy" 0.1])
    as [trends | err] eqn:Hagg.
  - destruct (trends !! "2025-03-01") as [t |] eqn:Hlook.
    + exists t. split; [exact Hlook |].
      rewrite (emotion_distribution_counts _ _ _ _ "joy" Hagg Hlook).
      vm_compute. reflexivity.
    + exfalso.
      pose proof (aggregate_trends_lookup _ _ "2025-03-01" Hagg) as Hl.
      destruct (entries_on "2025-03-01" _) eqn:Hes; [vm_compute in Hes; discriminate |].
      destruct Hl as (t0 & _ & Ht0). congruence.
  - exfalso.
    assert (is_ok (aggregate_trends
                     [Example.entry 1 "joy" 0.9; Example.entry 1 "" 0.2;
                      Example.entry 2 "joy" 0.4; Example.entry 1 "joy" 0.1]) = true) as Hok
      by (vm_compute; reflexivity).
    rewrite Hagg in Hok. discriminate.
Defined.

(** ** Trends across requests *)

Lemma get_mood_trends_entries env user_id db db' :
  filter (λ doc, MoodEntry.user_id doc = user_id) (mood_entries db) =
    filter (λ doc, MoodEntry.user_id doc = user_id) (mood_entries db') →
  (get_mood_trends env (trends_of_user user_id) db).2 =
    (get_mood_trends env (trends_of_user user_id) db').2.
Proof.
  intros Hf. unfold get_mood_trends, trends_of_user, try_except, firestore. cbn.
  destruct (String.eqb user_id ""); [reflexivity |]. rewrite Hf.
  destruct (firestore_fault env); [reflexivity |]. cbn.
  destruct (aggregate_trends _); reflexivity.
Qed.

Lemma handle_mood_entries env r now db :
  mood_entries (handle env r now db).1 = mood_entries db ∨
  ∃ user_id user_text a rr,
    r = AnalyzeMood (text_entry user_id user_text) ∧
    mood_entries (handle env r now db).1 =
      mood_entries db ++ [entry_of env db user_id user_text now a rr].
Proof.
  destruct r as [data | data | data | data]; cbn [handle].
  - unfold analyze_mood, try_except, firestore.
    destruct data as [[[user_text |] [user_id |]] |]; try by left.
    destruct (emotion_classifier env user_text) as [a |]; [| by left]. cbn.
    destruct (risk_classifier env user_text) as [rr |]; [| by left]. cbn.
    destruct (firestore_fault env); [by left |]. cbn.
    right. by exists user_id, user_text, a, rr.
  - left. unfold set_emergency_code, try_except, firestore.
    destruct data as [[[user_id |] [code_word |] [emergency_contact |]] |]; try done.
    by destruct (firestore_fault env).
  - left. by rewrite get_mood_trends_store.
  - left. unfold submit_checkin, try_except, firestore.
    destruct data as [[user_id slider tags note] |]; [| done]. cbn.
    destruct (nonempty user_id) as [uid |], slider as [v |], (default [] tags) as [| t ts];
      try done.
    by destruct (firestore_fault env).
Qed.

(** X15: a user's trends only change through that user's own analyses: after
    any other request (another user's analysis, any configuration, check-in
    or trends request, served or failed) [get_mood_trends] answers for the
    user exactly as before. *)
Theorem trends_unchanged_by_other_requests env env' r now db user_id :
  ¬ analyzes_for user_id r →
  (get_mood_trends env' (trends_of_user user_id) (handle env r now db).1).2 =
    (get_mood_trends env' (trends_of_user user_id) db).2.
Proof.
  intros Hother. apply get_mood_trends_entries.
  destruct (handle_mood_entries env r now db) as [-> | (u & text & a & rr & -> & ->)];
    [reflexivity |].
  rewrite filter_app, filter_cons, filter_nil.
  rewrite decide_False; [by rewrite app_nil_r |].
  cbn. intros ->. by apply Hother.
Qed.

Lemma trends_unchanged_by_other_requests_witness :
  (get_mood_trends (Example.env "joy" 0.5) (trends_of_user "u1")
     (handle (Example.env "sadness" 0.9) (AnalyzeMood (text_entry "u2" "I feel hopeless"))
        (Example.noon 2)
        (store_of_entries [Example.entry 1 "joy" 0.9])).1).2 =
  (get_mood_trends (Example.env "joy" 0.5) (trends_of_user "u1")
     (store_of_entries [Example.entry 1 "joy" 0.9])).2.
Proof.
  refine (trends_unchanged_by_other_requests (Example.env "sadness" 0.9) (Example.env "joy" 0.5)
            (AnalyzeMood (text_entry "u2" "I feel hopeless")) (Example.noon 2)
            (store_of_entries [Example.entry 1 "joy" 0.9]) "u1" _).
  cbn. discriminate.
Defined.

(** X16: analysis and trends compose: after the first analysed text of a
    user, [get_mood_trends] answers for that user with one date, the day of
    the analysis, whose average is the stored risk score, whose emotion
    distribution counts the returned emotion once and whose mood-swing flag
    is false. *)
Theorem first_analysis_round_trip env env' user_id user_text now db r rr :
  answers env user_text r rr →
  firestore_fault env' = None →
  user_id ≠ "" →
  Classification.label r ≠ "" →
  in_unit_interval (Classification.score rr) = true →
  (∀ doc, doc ∈ mood_entries db → MoodEntry.user_id doc ≠ user_id) →
  (get_mood_trends env' (trends_of_user user_id)
     (analyze_mood env (text_entry user_id user_text) now db).1).2 =
    {| status := 200;
       body := TrendsBody user_id
         {[ to_date now :=
              {| DailyTrend.average_risk_score := Py.round (Classification.score rr) 2;
                 DailyTrend.emotion_distribution := {[ Classification.label r := 1%nat ]};
                 DailyTrend.mood_swing := false |} ]}
         "Mood trends calculated successfully" |}.
Proof.
  intros Hans Hup Hu Hlabel Hunit Hnew.
  rewrite (analyze_mood_answers _ _ _ _ _ _ _ Hans). cbn [fst].
  unfold get_mood_trends, trends_of_user, try_except, firestore.
  cbn [MoodTrendsData.user_id].
  assert (nonempty (Some user_id) = Some user_id) as -> by (by apply nonempty_Some).
  rewrite Hup. cbn [mbind result_bind add_mood_entry mood_entries].
  rewrite filter_app.
  assert (filter (λ doc, MoodEntry.user_id doc = user_id) (mood_entries db) = []) as ->.
  { induction (mood_entries db) as [| doc l IH]; [reflexivity |].
    rewrite filter_cons, decide_False, IH; [reflexivity | |].
    - intros d Hd. apply Hnew. by apply list_elem_of_further.
    - apply Hnew. apply list_elem_of_here. }
  rewrite filter_cons, filter_nil, decide_True by reflexivity.
  cbn [app]. unfold aggregate_trends, grouped_data.
  cbn [fold_left MoodEntry.timestamp entry_of group_append trends_loop].
  rewrite daily_trend_single. cbn [mbind result_bind snd].
  unfold jsonify. rewrite insert_empty. repeat f_equal.
  - unfold entry_of. cbn [MoodEntry.risk_score from_option]. unfold id.
    destruct (round_unit_interval _ Hunit) as (k & Hk & ->). by apply cent_average.
  - unfold emotions_of, item_of, entry_of.
    cbn [omap list_omap Item.emotion MoodEntry.emotion].
    assert (nonempty (Some (Classification.label r)) = Some (Classification.label r)) as ->
      by (by apply nonempty_Some).
    unfold Counter. cbn [fold_left]. rewrite lookup_empty. cbn. by rewrite insert_empty.
Qed.

Lemma first_analysis_round_trip_witness :
  trends_of_response
    (get_mood_trends (Example.env "joy" 0.5) (trends_of_user "u1")
       (analyze_mood (Example.env "sadness" 0.849) (text_entry "u1" "ok")
          (Example.noon 1) empty_store).1).2 =
    Some {[ "2025-03-01" :=
              {| DailyTrend.average_risk_score := 0.85%float;
                 DailyTrend.emotion_distribution := {[ "sadness" := 1%nat ]};
                 DailyTrend.mood_swing := false |} ]}.
Proof.
  rewrite (first_analysis_round_trip (Example.env "sadness" 0.849) (Example.env "joy" 0.5)
             "u1" "ok" (Example.noon 1) empty_store
             {| Classification.label := "sadness"; Classification.score := 0.849 |}
             {| Classification.label := "sadness"; Classification.score := 0.849 |}).
  - reflexivity.
  - repeat split.
  - reflexivity.
  - discriminate.
  - discriminate.
  - vm_compute. reflexivity.
  - intros doc Hdoc. by apply elem_of_nil in Hdoc.
Defined.

(** ** Check-ins and stored entries *)

(** X17: a valid check-in (a non-empty user, any slider value, at least one
    tag) is appended at the end of that user's own list, with the note
    defaulting to the empty string; the other users' lists, the mood entries
    and the emergency settings stay as they are. *)
Theorem checkin_appended env user_id slider_value tag tags note now db :
  user_id ≠ "" →
  firestore_fault env = None →
  let out := submit_checkin env
               (checkin (Some user_id) (Some slider_value) (Some (tag :: tags)) note) now db in
  status out.2 = 200 ∧
  user_checkins out.1 !! user_id =
    Some (default [] (user_checkins db !! user_id) ++
          [{| CheckIn.slider_value := slider_value;
              CheckIn.tags := tag :: tags;
              CheckIn.note := default "" note;
              CheckIn.timestamp := now |}]) ∧
  (∀ other, other ≠ user_id → user_checkins out.1 !! other = user_checkins db !! other) ∧
  mood_entries out.1 = mood_entries db ∧
  user_emergency_settings out.1 = user_emergency_settings db.
Proof.
  intros Hne Hup.
  assert (nonempty (Some user_id) = Some user_id) as Hu by (by apply nonempty_Some).
  unfold submit_checkin, checkin, try_except, firestore.
  cbn [CheckInData.user_id CheckInData.slider_value CheckInData.tags CheckInData.note].
  rewrite Hu. cbn. rewrite Hup. cbn.
  split; [reflexivity |]. split; [by rewrite lookup_insert_eq |].
  split; [| done]. intros other Hother. by rewrite lookup_insert_ne.
Qed.

Lemma checkin_appended_witness :
  length <$>
    user_checkins
      (submit_checkin (Example.env "joy" 0.5)
         (checkin (Some "u1") (Some (PyFloat 3.5)) (Some ["tired"; "calm"]) (Some "long day"))
         (evening 1)
         (submit_checkin (Example.env "joy" 0.5)
            (checkin (Some "u1") (Some (PyInt 7)) (Some ["calm"]) None)
            (Example.noon 1) empty_store).1).1 !! "u1" = Some 2%nat.
Proof.
  rewrite (proj1 (proj2 (checkin_appended (Example.env "joy" 0.5) "u1" (PyFloat 3.5)
                           "tired" ["calm"] (Some "long day") (evening 1)
                           (submit_checkin (Example.env "joy" 0.5)
                              (checkin (Some "u1") (Some (PyInt 7)) (Some ["calm"]) None)
                              (Example.noon 1) empty_store).1
                           ltac:(discriminate) eq_refl))).
  reflexivity.
Defined.

(** X18: every mood entry that the handlers have written is complete: it has
    a timestamp, an emotion and a risk score, so [get_mood_trends] never
    skips it and never falls back on the default score; its risk label is a
    lowercased label, and its crisis flag is set whenever its text contains
    a crisis keyword as the keyword check reads it. *)
Theorem stored_entries_complete lower_fn db e :
  reachable lower_fn db →
  e ∈ mood_entries db →
  is_Some (MoodEntry.timestamp e) ∧
  is_Some (MoodEntry.emotion e) ∧
  is_Some (MoodEntry.risk_score e) ∧
  (∃ label, MoodEntry.risk_label e = lower_fn label) ∧
  (∀ env, lower env = lower_fn →
     keyword_crisis env (MoodEntry.text e) = true → MoodEntry.crisis e = true).
Proof.
  intros Hreach. revert e. induction Hreach as [| env r now db Henv _ IH]; intros e Hin.
  - by apply elem_of_nil in Hin.
  - destruct (handle_mood_entries env r now db) as [Hsame | (u & text & a & rr & _ & Happ)].
    + rewrite Hsame in Hin. by apply IH.
    + rewrite Happ in Hin. apply elem_of_app in Hin as [Hin | Hin]; [by apply IH |].
      apply list_elem_of_singleton in Hin as ->. cbn.
      split; [eauto |]. split; [eauto |]. split; [eauto |].
      split; [exists (Classification.label rr); by rewrite Henv |].
      intros env0 Hlow. unfold keyword_crisis. rewrite Hlow, <- Henv.
      intros ->. reflexivity.
Qed.

Lemma stored_entries_complete_witness :
  Forall (λ e, MoodEntry.crisis e = true)
    (mood_entries (handle (Example.env "joy" 0.99)
                     (AnalyzeMood (text_entry "u1" "Everything feels HOPELESS"))
                     (Example.noon 1) empty_store).1).
Proof.
  apply Forall_forall. intros e He.
  refine (proj2 (proj2 (proj2 (proj2
            (stored_entries_complete Py.ascii_lower
               (handle (Example.env "joy" 0.99)
                  (AnalyzeMood (text_entry "u1" "Everything feels HOPELESS"))
                  (Example.noon 1) empty_store).1 e _ He)))) (Example.env "joy" 0.99) eq_refl _).
  - apply reachable_step; [reflexivity | apply reachable_empty].
  - apply list_elem_of_singleton in He as ->. vm_compute. reflexivity.
Defined.

(** ** Visual entries *)

(** X19: [log_visual_emotion] answers 400 exactly when the body or one of the
    keys [user_id] and [emotion] is missing; any other answer than 200
    leaves the collection as it was; when Firestore is reachable it appends
    one entry with the user, the emotion, the confidence (or none when the
    key is missing) and the time of the request, and echoes user, emotion
    and confidence. *)
Theorem log_visual_emotion_outcome env data now entries :
  (visual_status (log_visual_emotion env data now entries).2 = 400 ↔
     match data with
     | Some d => VisualData.user_id d = None ∨ VisualData.emotion d = None
     | None => True
     end) ∧
  (visual_status (log_visual_emotion env data now entries).2 ≠ 200 →
   (log_visual_emotion env data now entries).1 = entries) ∧
  (∀ user_id emotion confidence,
     data = Some {| VisualData.user_id := Some user_id;
                    VisualData.emotion := Some emotion;
                    VisualData.confidence := confidence |} →
     firestore_fault env = None →
     log_visual_emotion env data now entries =
       (entries ++ [{| VisualEntry.user_id := user_id;
                       VisualEntry.emotion := emotion;
                       VisualEntry.confidence := confidence;
                       VisualEntry.timestamp := now |}],
        {| visual_status := 200;
           visual_body := VisualLogged
             {| VisualReply.message := "Visual emotion logged successfully";
                VisualReply.user_id := user_id;
                VisualReply.emotion := emotion;
                VisualReply.confidence := confidence |} |})).
Proof.
  unfold log_visual_emotion, firestore. split; [| split].
  - destruct data as [[[user_id |] [emotion |] confidence] |]; cbn;
      try (split; [by auto | done]).
    destruct (firestore_fault env); cbn; (split; [discriminate | intros [[=] | [=]]]).
  - destruct data as [[[user_id |] [emotion |] confidence] |]; try done.
    destruct (firestore_fault env); cbn; [done |]. intros H. by destruct H.
  - intros user_id emotion confidence -> Hup. by rewrite Hup.
Qed.

Lemma log_visual_emotion_outcome_witness :
  (log_visual_emotion (Example.env "joy" 0.5)
     (Some {| VisualData.user_id := Some "u1";
              VisualData.emotion := Some "";
              VisualData.confidence := None |})
     (Example.noon 1) []).1 =
    [{| VisualEntry.user_id := "u1";
        VisualEntry.emotion := "";
        VisualEntry.confidence := None;
        VisualEntry.timestamp := Example.noon 1 |}].
Proof.
  rewrite (proj2 (proj2 (log_visual_emotion_outcome (Example.env "joy" 0.5)
                           (Some {| VisualData.user_id := Some "u1";
                                    VisualData.emotion := Some "";
                                    VisualData.confidence := None |})
                           (Example.noon 1) []))
             "u1" "" None eq_refl eq_refl).
  reflexivity.
Defined.

(** ** Keywords *)

(** X20: which phrases the keyword check finds.  With [str.lower] the ASCII
    lowercasing, the keyword check of [analyze_mood] fires exactly when the
    lowercased text contains one of the crisis phrases that are written in
    lowercase: the four phrases written with a capital I never count. *)
Theorem keyword_crisis_effective_phrases env user_text :
  (∀ s, lower env s = Py.ascii_lower s) →
  (keyword_crisis env user_text = true ↔
   ∃ word, word ∈ crisis_keywords ∧ (word ∉ capitalised_keywords) ∧
           Py.contains word (Py.ascii_lower user_text) = true).
Proof.
  intros Hlower. unfold keyword_crisis. rewrite existsb_exists. split.
  - intros (word & Hin & Hc). rewrite Hlower in Hc.
    exists word. split; [by apply list_elem_of_In | split; [| exact Hc]].
    intros Hcap. destruct (capitalised_keywords_never_match word user_text Hcap) as [_ Hno].
    congruence.
  - intros (word & Hin & _ & Hc). exists word.
    split; [by apply list_elem_of_In | by rewrite Hlower].
Qed.

Lemma keyword_crisis_effective_phrases_witness :
  keyword_crisis (Example.env "joy" 0.99) "Some days I just want to GIVE UP" = true.
Proof.
  apply (proj2 (keyword_crisis_effective_phrases (Example.env "joy" 0.99)
                  "Some days I just want to GIVE UP" (fun _ => eq_refl))).
  exists "give up". split; [| split].
  - unfold crisis_keywords. rewrite !elem_of_cons. tauto.
  - unfold capitalised_keywords. rewrite !elem_of_cons, elem_of_nil.
    intros [H | [H | [H | [H | []]]]]; discriminate H.
  - vm_compute. reflexivity.
Defined.

(** ** One day at a time *)

(** X21: the trend of a date is made from that date's documents alone: two
    successful aggregations that retrieve the same documents for a date, in
    the same order, give that date the same trend, whatever else each of
    them retrieves for other dates. *)
Theorem trend_depends_on_its_day docs docs' trends trends' date :
  aggregate_trends docs = Ok trends →
  aggregate_trends docs' = Ok trends' →
  entries_on date docs = entries_on date docs' →
  trends !! date = trends' !! date.
Proof.
  intros Hagg Hagg' Heq.
  pose proof (aggregate_trends_lookup _ _ date Hagg) as Hl.
  pose proof (aggregate_trends_lookup _ _ date Hagg') as Hl'.
  rewrite <- Heq in Hl'.
  destruct (entries_on date docs) as [| e es]; [congruence |].
  destruct Hl as (t & Ht & ->), Hl' as (t' & Ht' & ->). congruence.
Qed.

Lemma trend_depends_on_its_day_witness :
  trend_on "2025-03-01"
    (aggregate_trends [Example.entry 1 "joy" 0.9; Example.entry 1 "fear" 0.3]) =
  trend_on "2025-03-01"
    (aggregate_trends [Example.entry 2 "anger" 0.6; Example.entry 1 "joy" 0.9;
                       Example.entry 3 "joy" 0.2; Example.entry 1 "fear" 0.3]).
Proof.
  destruct (aggregate_trends [Example.entry 1 "joy" 0.9; Example.entry 1 "fear" 0.3])
    as [trends | err] eqn:Hagg.
  - destruct (aggregate_trends [Example.entry 2 "anger" 0.6; Example.entry 1 "joy" 0.9;
                                Example.entry 3 "joy" 0.2; Example.entry 1 "fear" 0.3])
      as [trends' | err'] eqn:Hagg'.
    + exact (trend_depends_on_its_day _ _ _ _ "2025-03-01" Hagg Hagg' eq_refl).
    + exfalso.
      assert (is_ok (aggregate_trends
                       [Example.entry 2 "anger" 0.6; Example.entry 1 "joy" 0.9;
                        Example.entry 3 "joy" 0.2; Example.entry 1 "fear" 0.3]) = true) as Hok
        by (vm_compute; reflexivity).
      rewrite Hagg' in Hok. discriminate.
  - exfalso.
    assert (is_ok (aggregate_trends
                     [Example.entry 1 "joy" 0.9; Example.entry 1 "fear" 0.3]) = true) as Hok
      by (vm_compute; reflexivity).
    rewrite Hagg in Hok. discriminate.
Defined.

(** ** The stored risk score and the model check *)

Lemma round_half_even_floor num den :
  0 < den → num / den ≤ Py.round_half_even num den ≤ num / den + 1.
Proof.
  intros Hden. unfold Py.round_half_even.
  destruct (2 * (num mod den) ?= den); [destruct (Z.even (num / den)) | |].
  all: lia.
Qed.

Lemma digits2_pos_size p : digits2_pos p = Pos.size p.
Proof. induction p as [p IH | p IH |]; cbn; by rewrite ?IH. Qed.

(** The mantissa and the exponent of a finite float are those of a number
    of the binary64 format. *)
Lemma finite_float_shape x s m e :
  Prim2SF x = S754_finite s m e →
  Z.pos m < 2 ^ 53 ∧ -1074 ≤ e ∧ (-1074 < e → 2 ^ 52 ≤ Z.pos m).
Proof.
  intros Hx. pose proof (Prim2SF_valid x) as Hv. rewrite Hx in Hv.
  unfold SpecFloat.valid_binary, bounded, canonical_mantissa, fexp, SpecFloat.emin in Hv.
  apply andb_prop in Hv as [Hc _]. apply Z.eqb_eq in Hc.
  rewrite digits2_pos_size in Hc.
  change prec with 53 in Hc. change emax with 1024 in Hc.
  pose proof (Pos.size_gt m) as Hgt. pose proof (Pos.size_le m) as Hle.
  apply Pos2Z.pos_lt_pos in Hgt. apply Pos2Z.pos_le_pos in Hle.
  rewrite Pos2Z.inj_pow in Hgt, Hle. rewrite Pos2Z.inj_xO in Hle.
  destruct (Z.max_spec (Z.pos (Pos.size m) + e - 53) (3 - 1024 - 53)) as [[Hlt Hmax] | [Hge Hmax]].
  - split; [| lia].
    eapply Z.lt_le_trans; [exact Hgt |]. apply Z.pow_le_mono_r; lia.
  - assert (Z.pos (Pos.size m) = 53) as Hsize by lia.
    rewrite Hsize in Hgt, Hle. change (2 ^ 53) with (2 * 2 ^ 52) in Hle. lia.
Qed.

Lemma nearest_scaled_eq m e :
  Py.nearest_scaled m e 2 =
    if 0 <=? e then Z.pos m * 100 * 2 ^ e else Py.round_half_even (Z.pos m * 100) (2 ^ (- e)).
Proof. reflexivity. Qed.

(** What [round(x, 2)] is for a positive confidence, in hundredths. *)
Lemma round_unit_interval_scaled x m e :
  Prim2SF x = S754_finite false m e →
  in_unit_interval x = true →
  0 ≤ Py.nearest_scaled m e 2 ≤ 100 ∧
  Py.round x 2 = cent (Z.to_nat (Py.nearest_scaled m e 2)).
Proof.
  intros Hx. unfold in_unit_interval, Py.round. rewrite Hx. intros Hunit.
  pose proof (nearest_scaled_unit m e Hunit) as Hn. split; [exact Hn |].
  destruct (Py.nearest_scaled m e 2) as [| n | n]; [reflexivity | | lia].
  change (Z.to_pos (10 ^ Z.of_N 2)) with 100%positive.
  unfold cent. change (Z.to_nat (Z.pos n)) with (Pos.to_nat n).
  destruct (Pos.to_nat n) eqn:Hk; [lia |].
  by rewrite <- Hk, Pos2Nat.id.
Qed.

Lemma cent_at_least_86 k :
  (k ≤ 100)%nat → (0.86 <=? cent k)%float = true → (86 ≤ k)%nat.
Proof.
  intros Hk.
  do 101 (destruct k as [| k]; [intros H; first [lia | vm_compute in H; discriminate] |]).
  lia.
Qed.

Lemma cent_at_most_84 k :
  (k ≤ 100)%nat → (cent k <=? 0.84)%float = true → (k ≤ 84)%nat.
Proof.
  intros Hk.
  do 101 (destruct k as [| k]; [intros H; first [lia | vm_compute in H; discriminate] |]).
  lia.
Qed.

Lemma score_085 : Prim2SF 0.85 = S754_finite false 7656119366529843 (-53).
Proof. vm_compute. reflexivity. Qed.

(** A confidence whose two-decimal rounding is 0.86 or more is above the
    threshold of the model check. *)
Lemma rounded_at_least_86 x :
  in_unit_interval x = true →
  (0.86 <=? Py.round x 2)%float = true →
  (0.85 <? x)%float = true.
Proof.
  intros Hunit H.
  destruct (Prim2SF x) as [s | s | | s m e] eqn:Hx.
  - assert (x = 0%float) as ->.
    { unfold in_unit_interval in Hunit. rewrite Hx in Hunit.
      rewrite <- (SF2Prim_Prim2SF x), Hx. by destruct s. }
    vm_compute in H. discriminate.
  - unfold in_unit_interval in Hunit. by rewrite Hx in Hunit.
  - unfold in_unit_interval in Hunit. by rewrite Hx in Hunit.
  - assert (s = false) as ->.
    { unfold in_unit_interval in Hunit. rewrite Hx in Hunit. by destruct s. }
    destruct (round_unit_interval_scaled x m e Hx Hunit) as [Hn Hround].
    rewrite Hround in H. apply cent_at_least_86 in H; [| lia].
    destruct (finite_float_shape x _ _ _ Hx) as (Hm & _ & _).
    rewrite ltb_spec, Hx, score_085. unfold SFltb, SFcompare.
    rewrite nearest_scaled_eq in Hn, H.
    destruct (Z.compare_spec (-53) e) as [<- | Hlt | Hgt]; [| reflexivity |].
    + cbn [Z.leb Z.compare Z.opp] in Hn, H.
      change (2 ^ (- (-53))) with 9007199254740992 in Hn, H.
      change (2 ^ 53) with 9007199254740992 in Hm.
      pose proof (round_half_even_floor (Z.pos m * 100) 9007199254740992 ltac:(lia)) as Hq.
      pose proof (Z.mul_div_le (Z.pos m * 100) 9007199254740992 ltac:(lia)) as Hdiv.
      assert (7656119366529843 < m)%positive as Hm0 by lia.
      apply Pos.compare_lt_iff in Hm0. unfold Pos.compare in Hm0. by rewrite Hm0.
    + exfalso. destruct (Z.leb_spec 0 e) as [He | He]; [lia |].
      assert (2 ^ 54 ≤ 2 ^ (- e)) as Hden by (apply Z.pow_le_mono_r; lia).
      change (2 ^ 54) with 18014398509481984 in Hden.
      change (2 ^ 53) with 9007199254740992 in Hm.
      pose proof (round_half_even_floor (Z.pos m * 100) (2 ^ (- e)) ltac:(lia)) as Hq.
      assert (Z.pos m * 100 / 2 ^ (- e) < 50)
        by (apply Z.div_lt_upper_bound; lia).
      lia.
Qed.

(** A confidence whose two-decimal rounding is 0.84 or less is not above
    the threshold. *)
Lemma rounded_at_most_84 x :
  in_unit_interval x = true →
  (Py.round x 2 <=? 0.84)%float = true →
  (0.85 <? x)%float = false.
Proof.
  intros Hunit H.
  destruct (Prim2SF x) as [s | s | | s m e] eqn:Hx.
  - assert (x = 0%float) as ->.
    { unfold in_unit_interval in Hunit. rewrite Hx in Hunit.
      rewrite <- (SF2Prim_Prim2SF x), Hx. by destruct s. }
    reflexivity.
  - unfold in_unit_interval in Hunit. by rewrite Hx in Hunit.
  - unfold in_unit_interval in Hunit. by rewrite Hx in Hunit.
  - assert (s = false) as ->.
    { unfold in_unit_interval in Hunit. rewrite Hx in Hunit. by destruct s. }
    destruct (round_unit_interval_scaled x m e Hx Hunit) as [Hn Hround].
    rewrite Hround in H. apply cent_at_most_84 in H; [| lia].
    destruct (finite_float_shape x _ _ _ Hx) as (Hm & _ & Hnormal).
    rewrite ltb_spec, Hx, score_085. unfold SFltb, SFcompare.
    rewrite nearest_scaled_eq in Hn, H.
    destruct (Z.compare_spec (-53) e) as [<- | Hlt | Hgt]; [| | reflexivity].
    + cbn [Z.leb Z.compare Z.opp] in Hn, H.
      change (2 ^ (- (-53))) with 9007199254740992 in Hn, H.
      change (2 ^ 53) with 9007199254740992 in Hm.
      pose proof (round_half_even_floor (Z.pos m * 100) 9007199254740992 ltac:(lia)) as Hq.
      pose proof (Z.mul_succ_div_gt (Z.pos m * 100) 9007199254740992 ltac:(lia)) as Hnum.
      set (q := Z.pos m * 100 / 9007199254740992) in Hq, Hnum. clearbody q.
      set (n := Py.round_half_even (Z.pos m * 100) 9007199254740992) in H, Hq.
      clearbody n. clear Hx Hround Hunit Hnormal Hn Hm.
      assert (q < 85) as Hq85 by lia.
      assert (Z.pos m ≤ 7656119366529843) as Hm0 by lia.
      change (Pos.compare_cont Eq 7656119366529843 m) with (7656119366529843 ?= m)%positive.
      destruct (Pos.compare_spec 7656119366529843 m) as [_ | Hlt' | _];
        [reflexivity | | reflexivity].
      exfalso. apply Pos2Z.pos_lt_pos in Hlt'. lia.
    + exfalso. specialize (Hnormal ltac:(lia)).
      change (2 ^ 52) with 4503599627370496 in Hnormal.
      destruct (Z.leb_spec 0 e) as [He | He].
      * assert (0 < 2 ^ e) as Hpos by (apply Z.pow_pos_nonneg; lia).
        assert (Z.pos m * 100 * 1 ≤ Z.pos m * 100 * 2 ^ e) as Hmul
          by (apply Z.mul_le_mono_nonneg_l; lia).
        clear Hx Hround Hunit Hm. lia.
      * assert (2 ^ (- e) ≤ 2 ^ 52) as Hden by (apply Z.pow_le_mono_r; lia).
        change (2 ^ 52) with 4503599627370496 in Hden.
        assert (0 < 2 ^ (- e)) as Hpos by (apply Z.pow_pos_nonneg; lia).
        pose proof (round_half_even_floor (Z.pos m * 100) (2 ^ (- e)) Hpos) as Hq.
        assert (100 ≤ Z.pos m * 100 / 2 ^ (- e))
          by (apply Z.div_le_lower_bound; [exact Hpos | nia]).
        lia.
Qed.

(** X22: what the stored score says about the model check.  For a risk
    confidence in the unit interval, a stored and returned [risk_score] of
    0.86 or more means that the confidence was above 0.85, so with a label
    among sadness, anger and fear the crisis flag is set; a [risk_score] of
    0.84 or less means that the model check did not fire, so the crisis flag
    is the keyword check. *)
Theorem risk_score_and_model_check env user_id user_text now db r rr :
  answers env user_text r rr →
  in_unit_interval (Classification.score rr) = true →
  ∃ a,
    analysis_of (analyze_mood env (text_entry user_id user_text) now db).2 = Some a ∧
    ((0.86 <=? MoodAnalysis.risk_score a)%float = true →
     lower env (Classification.label rr) ∈ ["sadness"; "anger"; "fear"] →
     MoodAnalysis.crisis a = true) ∧
    ((MoodAnalysis.risk_score a <=? 0.84)%float = true →
     MoodAnalysis.crisis a = keyword_crisis env user_text).
Proof.
  intros Hans Hunit. rewrite (analyze_mood_answers _ _ _ _ _ _ _ Hans).
  eexists. split; [reflexivity |].
  unfold analysis_body, entry_of.
  cbn [MoodAnalysis.risk_score MoodAnalysis.crisis MoodEntry.risk_score MoodEntry.crisis
       from_option]. unfold id, ai_crisis. split.
  - intros Hs Hlabel. rewrite (rounded_at_least_86 _ Hunit Hs).
    rewrite bool_decide_eq_true_2 by exact Hlabel. by rewrite orb_true_r.
  - intros Hs. rewrite (rounded_at_most_84 _ Hunit Hs).
    by rewrite andb_false_r, orb_false_r.
Qed.

Lemma risk_score_and_model_check_witness :
  ∃ a,
    analysis_of (analyze_mood (Example.env "anger" 0.857) (text_entry "u1" "so so")
                   (Example.noon 1) empty_store).2 = Some a ∧
    MoodAnalysis.crisis a = true.
Proof.
  destruct (risk_score_and_model_check (Example.env "anger" 0.857) "u1" "so so"
              (Example.noon 1) empty_store
              {| Classification.label := "anger"; Classification.score := 0.857 |}
              {| Classification.label := "anger"; Classification.score := 0.857 |})
    as (a & Ha & Hhigh & _).
  - repeat split.
  - vm_compute. reflexivity.
  - exists a. split; [exact Ha |]. apply Hhigh.
    + vm_compute in Ha. injection Ha as <-. vm_compute. reflexivity.
    + refine (bool_decide_eq_true_1 _ _). vm_compute. reflexivity.
Defined.
